(** * designate.mdns.handler: the mini-DNS request handler

    A shallow embedding of [src/designate/mdns/handler.py] (class
    [RequestHandler]) and the properties of it that the specification
    states.

    Python dictionaries used as storage criteria are finite maps with
    string keys; the calls to the storage driver, to the resolver and to
    the thread group are threaded through a small state-and-exception
    monad whose state is the trace of collaborator calls made so far. *)

From stdpp Require Import base numbers strings list gmap.

Local Open Scope Z_scope.

(** ** dnspython constants and messages *)

Module dns.

(** [dns.opcode] *)
Definition opcode_QUERY : Z := 0.
Definition opcode_IQUERY : Z := 1.
Definition opcode_STATUS : Z := 2.
Definition opcode_NOTIFY : Z := 4.
Definition opcode_UPDATE : Z := 5.

(** [dns.rcode] *)
Definition rcode_NOERROR : Z := 0.
Definition rcode_FORMERR : Z := 1.
Definition rcode_REFUSED : Z := 5.
Definition rcode_NOTAUTH : Z := 9.

(** [dns.rdataclass], [dns.rdatatype] *)
Definition rdataclass_IN : Z := 1.
Definition rdatatype_A : Z := 1.
Definition rdatatype_SOA : Z := 6.
Definition rdatatype_IXFR : Z := 251.
Definition rdatatype_AXFR : Z := 252.

(** [dns.flags]: bits of the 16-bit header flags word *)
Definition flags_QR : Z := 0x8000.
Definition flags_AA : Z := 0x0400.
Definition flags_RD : Z := 0x0100.

(** One entry of the question section. *)
Record Question := {
  name : string;
  rdclass : Z;
  rdtype : Z
}.

(** What [dns.rrset.from_text_list(name, ttl, rdclass, rdtype, rdata)]
    is given: the handler's output is the arguments of that call. *)
Record RRset := {
  rr_name : string;
  rr_ttl : Z;
  rr_rdclass : Z;
  rr_rdtype : string;
  rr_rdata : list string
}.

(** A response message.  The rcode lives in the low four bits of the
    flags word, the opcode in bits 11 to 14.  The answer section is a
    Python list, whose entries may be [None]. *)
Record Response := {
  resp_id : Z;
  resp_flags : Z;
  resp_question : list Question;
  resp_answer : list (option RRset)
}.

Definition opcode_from_flags (flags : Z) : Z :=
  Z.shiftr (Z.land flags 0x7800) 11.

Definition opcode_to_flags (value : Z) : Z :=
  Z.land (Z.shiftl value 11) 0x7800.

(** [Message.rcode()] for a message without extended rcode bits. *)
Definition rcode (m : Response) : Z := Z.land (resp_flags m) 0xF.

(** [Message.set_rcode(rcode)] *)
Definition set_rcode (m : Response) (rc : Z) : Response :=
  {| resp_id := resp_id m;
     resp_flags := Z.lor (Z.land (resp_flags m) 0xFFF0) (Z.land rc 0xF);
     resp_question := resp_question m;
     resp_answer := resp_answer m |}.

(** [m.flags |= flag] *)
Definition or_flags (m : Response) (flag : Z) : Response :=
  {| resp_id := resp_id m;
     resp_flags := Z.lor (resp_flags m) flag;
     resp_question := resp_question m;
     resp_answer := resp_answer m |}.

(** [m.answer = rrsets] *)
Definition set_answer (m : Response) (rrsets : list (option RRset)) : Response :=
  {| resp_id := resp_id m;
     resp_flags := resp_flags m;
     resp_question := resp_question m;
     resp_answer := rrsets |}.

(** Is the authoritative-answer bit set? *)
Definition has_AA (m : Response) : bool := Z.testbit (resp_flags m) 10.

End dns.

(** ** designate objects *)

(** The request context carried in [request.environ]. *)
Record Context := { tenant : string }.

Record TsigKey := {
  scope : string;
  resource_id : string
}.

(** [request.environ]: filled in by the transport before the handler
    runs; [tsigkey] is what [environ.get('tsigkey')] gives. *)
Record Environ := {
  context : Context;
  addr : string * Z;
  tsigkey : option TsigKey
}.

(** A decoded query message with its environment. *)
Record Request := {
  req_id : Z;
  req_flags : Z;
  question : list dns.Question;
  environ : Environ
}.

(** [request.opcode()] *)
Definition opcode (request : Request) : Z :=
  dns.opcode_from_flags (req_flags request).

(** [dns.message.make_response(request)]: same id and question, QR set,
    RD and the opcode copied, rcode NOERROR, empty answer. *)
Definition make_response (query : Request) : dns.Response :=
  let flags := Z.lor dns.flags_QR (Z.land (req_flags query) dns.flags_RD) in
  let flags := Z.lor (Z.land flags 0x87FF) (dns.opcode_to_flags (opcode query)) in
  {| dns.resp_id := req_id query;
     dns.resp_flags := flags;
     dns.resp_question := question query;
     dns.resp_answer := [] |}.

Record Record_ := {
  data : string;
  action : string
}.

Record RecordSet := {
  rs_name : string;
  rs_type : string;
  rs_ttl : option Z;
  rs_domain_id : string;
  records : list Record_
}.

Record Domain := {
  d_id : string;
  d_pool_id : string;
  d_name : string;
  d_serial : Z;
  d_ttl : Z;
  d_type : string;
  d_masters : list string
}.

(** One rdata of a resolver answer to an SOA query. *)
Record SOA := { soa_serial : Z }.

(** Values stored in a criterion dictionary. *)
Inductive cval :=
| VStr (s : string)
| VBool (b : bool).

#[global] Instance cval_eq_dec : EqDecision cval.
Proof. solve_decision. Defined.

Abbreviation Criterion := (gmap string cval).

(** ** Exceptions *)

(** The exceptions the handler raises or names in an [except] clause,
    and [Other] for anything else a collaborator raises. *)
Inductive exn :=
| DomainNotFound
| RecordSetNotFound
| NotFound
| Forbidden
| NotImplementedError
| IndexError
| Other (cls : string).

#[global] Instance exn_eq_dec : EqDecision exn.
Proof. solve_decision. Defined.

(** [isinstance(e, cls)]: in [designate.exceptions] both
    [DomainNotFound] and [RecordSetNotFound] derive from [NotFound];
    [Forbidden] and [NotFound] derive from the common base only. *)
Definition isinstance (e cls : exn) : bool :=
  match cls, e with
  | NotFound, (NotFound | DomainNotFound | RecordSetNotFound) => true
  | _, _ => bool_decide (e = cls)
  end.

Inductive outcome (A : Type) :=
| Return (a : A)
| Raise (e : exn).
Arguments Return {A} a.
Arguments Raise {A} e.

(** ** Collaborator calls and the handler monad *)

Inductive LogLevel := WARN | INFO.

Inductive Event :=
| EFindDomain (ctx : Context) (criterion : Criterion)
| EFindRecordset (ctx : Context) (criterion : Criterion)
| EFindRecordsets (ctx : Context) (criterion : Criterion)
| EResolverQuery (nameservers : list string) (qname : string) (rdtype : string)
| EAddThread (ctx : Context) (domain : Domain) (servers : list string)
| ELog (level : LogLevel).

(** What the handler is given: [self.storage], the resolver, the
    [get_master_by_ip] method of domain objects ([None] stands for its
    falsy result), [dns.rdatatype.to_text] and the two options of
    [CONF]. *)
Record Collaborators := {
  find_domain : Context -> Criterion -> outcome Domain;
  find_recordset : Context -> Criterion -> outcome RecordSet;
  find_recordsets : Context -> Criterion -> outcome (list RecordSet);
  get_master_by_ip : Domain -> string -> option string;
  resolver_query : list string -> string -> string -> outcome (list SOA);
  rdatatype_to_text : Z -> string;
  query_enforce_tsig : bool;
  default_pool_id : string
}.

Definition M (A : Type) : Type := list Event -> outcome A * list Event.

#[global] Instance M_ret : MRet M := λ A a tr, (Return a, tr).

#[global] Instance M_bind : MBind M := λ A B f m tr,
  match m tr with
  | (Return a, tr') => f a tr'
  | (Raise e, tr') => (Raise e, tr')
  end.

(** Perform a collaborator call: record it, then return or raise. *)
Definition call {A} (ev : Event) (r : outcome A) : M A :=
  λ tr, (r, tr ++ [ev]).

(** An effect with no result. *)
Definition emit (ev : Event) : M unit :=
  λ tr, (Return (), tr ++ [ev]).

(** A pure computation that may raise. *)
Definition lift {A} (r : outcome A) : M A := λ tr, (r, tr).

(** [l[i]] *)
Definition getitem {A} (l : list A) (i : nat) : M A :=
  lift (match l !! i with Some x => Return x | None => Raise IndexError end).

(** [try: body / except ...: handler]; [handlers e] is the first
    matching clause, [None] when no clause matches and [e] goes on. *)
Definition try_except {A} (body : M A) (handlers : exn -> option (M A)) : M A :=
  λ tr,
    match body tr with
    | (Return a, tr') => (Return a, tr')
    | (Raise e, tr') =>
        match handlers e with
        | Some h => h tr'
        | None => (Raise e, tr')
        end
    end.

(** [try: x = body / except ...: return handler] followed by code
    [rest] that uses [x] and is outside of the [try]. *)
Definition try_except_then {A B} (body : M A) (handlers : exn -> option (M B))
    (rest : A -> M B) : M B :=
  λ tr,
    match body tr with
    | (Return a, tr') => rest a tr'
    | (Raise e, tr') =>
        match handlers e with
        | Some h => h tr'
        | None => (Raise e, tr')
        end
    end.

(** ** The request handler *)

Module RequestHandler.

Section Handler.

(** [self.storage], [self.tg], the resolver and [CONF]. *)
Variable self : Collaborators.

Definition storage_find_domain (ctx : Context) (criterion : Criterion) : M Domain :=
  call (EFindDomain ctx criterion) (find_domain self ctx criterion).

Definition storage_find_recordset (ctx : Context) (criterion : Criterion) : M RecordSet :=
  call (EFindRecordset ctx criterion) (find_recordset self ctx criterion).

Definition storage_find_recordsets (ctx : Context) (criterion : Criterion)
    : M (list RecordSet) :=
  call (EFindRecordsets ctx criterion) (find_recordsets self ctx criterion).

(** [resolver = dns.resolver.Resolver(); resolver.nameservers = ns;
    resolver.query(qname, rdtype)] *)
Definition resolver_query_at (ns : list string) (qname rdtype : string) : M (list SOA) :=
  call (EResolverQuery ns qname rdtype) (resolver_query self ns qname rdtype).

(** [self.tg.add_thread(self.domain_sync, context, domain, servers)] *)
Definition tg_add_thread_domain_sync (ctx : Context) (domain : Domain)
    (servers : list string) : M unit :=
  emit (EAddThread ctx domain servers).

Definition LOG (level : LogLevel) : M unit := emit (ELog level).

Definition _handle_query_error (request : Request) (rcode : Z) : dns.Response :=
  let response := make_response request in
  dns.set_rcode response rcode.

(** Builds a bare criterion dict based on the request attributes. *)
Definition _domain_criterion_from_request (request : Request)
    (criterion : option Criterion) : outcome Criterion :=
  let criterion : Criterion := default ∅ criterion in
  let tsigkey := tsigkey (environ request) in
  match tsigkey with
  | None =>
      if query_enforce_tsig self then Raise Forbidden
      else Return (<["pool_id" := VStr (default_pool_id self)]> criterion)
  | Some tsigkey =>
      if String.eqb (scope tsigkey) "POOL" then
        Return (<["pool_id" := VStr (resource_id tsigkey)]> criterion)
      else if String.eqb (scope tsigkey) "ZONE" then
        Return (<["id" := VStr (resource_id tsigkey)]> criterion)
      else Raise NotImplementedError
  end.

Definition _convert_to_rrset (domain : Domain) (recordset : RecordSet)
    : option dns.RRset :=
  (* [if recordset.ttl:] is false for [None] and for [0] *)
  let ttl :=
    match rs_ttl recordset with
    | Some t => if negb (t =? 0) then t else d_ttl domain
    | None => d_ttl domain
    end in
  let rdata :=
    foldl (λ rdata record,
             if negb (String.eqb (action record) "DELETE")
             then rdata ++ [data record] else rdata)
          [] (records recordset) in
  match rdata with
  | [] => None
  | _ :: _ =>
      Some {| dns.rr_name := rs_name recordset;
              dns.rr_ttl := ttl;
              dns.rr_rdclass := dns.rdataclass_IN;
              dns.rr_rdtype := rs_type recordset;
              dns.rr_rdata := rdata |}
  end.

(** Constructs the response to a NOTIFY and acts accordingly on it. *)
Definition _handle_notify (request : Request) : M dns.Response :=
  let context := context (environ request) in
  let response := make_response request in
  if negb (length (question request) =? 1)%nat then
    mret (dns.set_rcode response dns.rcode_FORMERR)
  else
    question ← getitem (question request) 0;
    let criterion : Criterion :=
      <["name" := VStr (dns.name question)]>
      (<["type" := VStr "SECONDARY"]>
      (<["deleted" := VBool false]> ∅)) in
    try_except_then
      (storage_find_domain context criterion)
      (λ e, if isinstance e DomainNotFound
            then Some (mret (dns.set_rcode response dns.rcode_NOTAUTH))
            else None)
      (λ domain,
         let notify_addr := fst (addr (environ request)) in
         match get_master_by_ip self domain notify_addr with
         | None =>
             LOG WARN;;
             mret (dns.set_rcode response dns.rcode_REFUSED)
         | Some master_addr =>
             soa_answer ← resolver_query_at [notify_addr] (d_name domain) "SOA";
             soa_answer_0 ← getitem soa_answer 0;
             let soa_serial := soa_serial soa_answer_0 in
             (if soa_serial =? d_serial domain then
                LOG INFO
              else
                LOG INFO;;
                tg_add_thread_domain_sync context domain [master_addr]);;
             mret (dns.or_flags response dns.flags_AA)
         end).

Definition _handle_axfr (request : Request) : M dns.Response :=
  let context := context (environ request) in
  let response := make_response request in
  q_rrset ← getitem (question request) 0;
  try_except_then
    (criterion ← lift (_domain_criterion_from_request request
                         (Some (<["name" := VStr (dns.name q_rrset)]> ∅)));
     storage_find_domain context criterion)
    (λ e, if isinstance e DomainNotFound then
            Some (LOG WARN;; mret (_handle_query_error request dns.rcode_REFUSED))
          else if isinstance e Forbidden then
            Some (LOG WARN;; mret (_handle_query_error request dns.rcode_REFUSED))
          else None)
    (λ domain,
       let r_rrsets : list (option dns.RRset) := [] in
       let criterion : Criterion :=
         <["domain_id" := VStr (d_id domain)]> (<["type" := VStr "SOA"]> ∅) in
       soa_recordsets ← storage_find_recordsets context criterion;
       let r_rrsets :=
         foldl (λ r_rrsets recordset,
                  r_rrsets ++ [_convert_to_rrset domain recordset])
               r_rrsets soa_recordsets in
       let criterion : Criterion :=
         <["domain_id" := VStr (d_id domain)]> (<["type" := VStr "!SOA"]> ∅) in
       recordsets ← storage_find_recordsets context criterion;
       let r_rrsets :=
         foldl (λ r_rrsets recordset,
                  match _convert_to_rrset domain recordset with
                  | Some r_rrset => r_rrsets ++ [Some r_rrset]
                  | None => r_rrsets
                  end)
               r_rrsets recordsets in
       let r_rrsets :=
         foldl (λ r_rrsets recordset,
                  r_rrsets ++ [_convert_to_rrset domain recordset])
               r_rrsets soa_recordsets in
       let response := dns.set_rcode response dns.rcode_NOERROR in
       let response := dns.set_answer response r_rrsets in
       let response := dns.or_flags response dns.flags_AA in
       mret response).

(** Handle a DNS QUERY request for a record. *)
Definition _handle_record_query (request : Request) : M dns.Response :=
  let context := context (environ request) in
  let response := make_response request in
  try_except
    (q_rrset ← getitem (question request) 0;
     let criterion : Criterion :=
       <["name" := VStr (dns.name q_rrset)]>
       (<["type" := VStr (rdatatype_to_text self (dns.rdtype q_rrset))]>
       (<["domains_deleted" := VBool false]> ∅)) in
     recordset ← storage_find_recordset context criterion;
     try_except_then
       (criterion ← lift (_domain_criterion_from_request request
                            (Some (<["id" := VStr (rs_domain_id recordset)]> ∅)));
        storage_find_domain context criterion)
       (λ e, if isinstance e DomainNotFound then
               Some (LOG WARN;; mret (_handle_query_error request dns.rcode_REFUSED))
             else if isinstance e Forbidden then
               Some (LOG WARN;; mret (_handle_query_error request dns.rcode_REFUSED))
             else None)
       (λ domain,
          let r_rrset := _convert_to_rrset domain recordset in
          let response := dns.set_rcode response dns.rcode_NOERROR in
          let response := dns.set_answer response [r_rrset] in
          let response := dns.or_flags response dns.flags_AA in
          mret response))
    (λ e, if isinstance e NotFound then
            Some (mret (dns.set_rcode response dns.rcode_REFUSED))
          else if isinstance e Forbidden then
            Some (mret (dns.set_rcode response dns.rcode_REFUSED))
          else None).

(** [q_rrset.rdtype in (dns.rdatatype.AXFR, dns.rdatatype.IXFR)] *)
Definition is_xfr (rdtype : Z) : bool :=
  (rdtype =? dns.rdatatype_AXFR) || (rdtype =? dns.rdatatype_IXFR).

(** The condition [len(request.question) != 1 or
    request.question[0].rdclass != dns.rdataclass.IN] is two nested
    tests: the second operand is evaluated only when the first is
    false. *)
Definition __call__ (request : Request) : M dns.Response :=
  if opcode request =? dns.opcode_QUERY then
    if negb (length (question request) =? 1)%nat then
      mret (_handle_query_error request dns.rcode_REFUSED)
    else
      question_0 ← getitem (question request) 0;
      if negb (dns.rdclass question_0 =? dns.rdataclass_IN) then
        mret (_handle_query_error request dns.rcode_REFUSED)
      else
        q_rrset ← getitem (question request) 0;
        if is_xfr (dns.rdtype q_rrset) then _handle_axfr request
        else _handle_record_query request
  else if opcode request =? dns.opcode_NOTIFY then
    _handle_notify request
  else
    mret (_handle_query_error request dns.rcode_REFUSED).

End Handler.

End RequestHandler.

(** ** Vocabulary of the statements *)

(** The re-sync tasks handed to the thread group in a trace. *)
Definition resync_tasks (tr : list Event) : list (Context * Domain * list string) :=
  omap (λ ev, match ev with
              | EAddThread ctx domain servers => Some (ctx, domain, servers)
              | _ => None
              end) tr.

(** The remote queries made in a trace: name servers asked and name. *)
Definition remote_queries (tr : list Event) : list (list string * string) :=
  omap (λ ev, match ev with
              | EResolverQuery ns qname _ => Some (ns, qname)
              | _ => None
              end) tr.

Section Vocabulary.

Import RequestHandler.

(** The data of the records of a record-set that are not marked
    for deletion, in their order. *)
Definition live_data (recordset : RecordSet) : list string :=
  data <$> filter (λ record, action record ≠ "DELETE") (records recordset).

(** The TTL [_convert_to_rrset] gives to what it emits. *)
Definition effective_ttl (domain : Domain) (recordset : RecordSet) : Z :=
  match rs_ttl recordset with
  | Some t => if t =? 0 then d_ttl domain else t
  | None => d_ttl domain
  end.

(** When the TSIG key is absent or has scope POOL or ZONE, criterion
    building raises nothing but [Forbidden]. *)
Definition supported_scope (request : Request) : Prop :=
  match tsigkey (environ request) with
  | Some key => scope key = "POOL" \/ scope key = "ZONE"
  | None => True
  end.

(** The two record-set criteria of a transfer of zone [domain]. *)
Definition soa_criterion (domain : Domain) : Criterion :=
  <["domain_id" := VStr (d_id domain)]> (<["type" := VStr "SOA"]> ∅).

Definition non_soa_criterion (domain : Domain) : Criterion :=
  <["domain_id" := VStr (d_id domain)]> (<["type" := VStr "!SOA"]> ∅).

(** The answer section of a transfer. *)
Definition axfr_answer (domain : Domain) (soas others : list RecordSet)
    : list (option dns.RRset) :=
  (_convert_to_rrset domain <$> soas)
  ++ (Some <$> omap (_convert_to_rrset domain) others)
  ++ (_convert_to_rrset domain <$> soas).

(** The record-set criterion built from a question. *)
Definition recordset_criterion (self : Collaborators) (q : dns.Question) : Criterion :=
  <["name" := VStr (dns.name q)]>
  (<["type" := VStr (rdatatype_to_text self (dns.rdtype q))]>
  (<["domains_deleted" := VBool false]> ∅)).

(** The zone criterion built from the question of a NOTIFY. *)
Definition notify_criterion (q : dns.Question) : Criterion :=
  <["name" := VStr (dns.name q)]>
  (<["type" := VStr "SECONDARY"]>
  (<["deleted" := VBool false]> ∅)).

(** The rcodes the handler sets. *)
Definition handler_rcode (rc : Z) : Prop :=
  rc = dns.rcode_NOERROR \/ rc = dns.rcode_FORMERR
  \/ rc = dns.rcode_REFUSED \/ rc = dns.rcode_NOTAUTH.

End Vocabulary.

(** ** A small deployment used in the examples *)

Module Fixture.

Definition ctx : Context := {| tenant := "tenant-1" |}.

Definition zone : Domain :=
  {| d_id := "zone-1"; d_pool_id := "pool-1"; d_name := "example.com.";
     d_serial := 100; d_ttl := 3600; d_type := "SECONDARY";
     d_masters := ["10.0.0.1"] |}.

Definition other_zone : Domain :=
  {| d_id := "zone-2"; d_pool_id := "pool-1"; d_name := "example.org.";
     d_serial := 7; d_ttl := 7200; d_type := "PRIMARY";
     d_masters := [] |}.

Definition soa_rs : RecordSet :=
  {| rs_name := "example.com."; rs_type := "SOA"; rs_ttl := Some 600;
     rs_domain_id := "zone-1";
     records := [ {| data := "ns1.example.com. admin.example.com. 100 3600 600 86400 3600";
                     action := "NONE" |} ] |}.

Definition www_rs : RecordSet :=
  {| rs_name := "www.example.com."; rs_type := "A"; rs_ttl := None;
     rs_domain_id := "zone-1";
     records := [ {| data := "192.0.2.1"; action := "NONE" |};
                  {| data := "192.0.2.2"; action := "DELETE" |};
                  {| data := "192.0.2.3"; action := "UPDATE" |} ] |}.

Definition gone_rs : RecordSet :=
  {| rs_name := "old.example.com."; rs_type := "A"; rs_ttl := Some 300;
     rs_domain_id := "zone-1";
     records := [ {| data := "192.0.2.9"; action := "DELETE" |} ] |}.

Definition zero_ttl_rs : RecordSet :=
  {| rs_name := "fast.example.com."; rs_type := "A"; rs_ttl := Some 0;
     rs_domain_id := "zone-1";
     records := [ {| data := "192.0.2.7"; action := "NONE" |} ] |}.

(** Storage holding the two zones, a resolver that answers [remote],
    and the configuration [enforce]. *)
Definition collaborators (enforce : bool) (remote : outcome (list SOA)) : Collaborators :=
  {| find_domain := λ _ criterion,
       if decide (criterion !! "id" = Some (VStr "zone-2")) then Return other_zone
       else if decide (criterion !! "id" = Some (VStr "zone-1")) then Return zone
       else if decide (criterion !! "name" = Some (VStr "example.com.")) then Return zone
       else Raise DomainNotFound;
     find_recordset := λ _ criterion,
       if decide (criterion !! "name" = Some (VStr "www.example.com.")) then Return www_rs
       else Raise RecordSetNotFound;
     find_recordsets := λ _ criterion,
       if decide (criterion !! "type" = Some (VStr "SOA")) then Return [soa_rs]
       else Return [www_rs; gone_rs; zero_ttl_rs];
     get_master_by_ip := λ domain host,
       if decide (host ∈ d_masters domain) then Some host else None;
     resolver_query := λ _ _ _, remote;
     rdatatype_to_text := λ t,
       if t =? 1 then "A" else if t =? 6 then "SOA" else "TYPE";
     query_enforce_tsig := enforce;
     default_pool_id := "pool-1" |}.

Definition request (op : Z) (qs : list dns.Question) (from : string)
    (key : option TsigKey) : Request :=
  {| req_id := 4242;
     req_flags := Z.lor (dns.opcode_to_flags op) dns.flags_RD;
     question := qs;
     environ := {| context := ctx; addr := (from, 5354); tsigkey := key |} |}.

Definition q (qname : string) (t : Z) : dns.Question :=
  {| dns.name := qname; dns.rdclass := dns.rdataclass_IN; dns.rdtype := t |}.

End Fixture.

(** ** Variations of a request and of the configuration *)

(** The same message with another [environ['tsigkey']]. *)
Definition with_tsigkey (request : Request) (key : option TsigKey) : Request :=
  {| req_id := req_id request;
     req_flags := req_flags request;
     question := question request;
     environ := {| context := context (environ request);
                   addr := addr (environ request);
                   tsigkey := key |} |}.

(** The same collaborators under other values of the two [CONF] options. *)
Definition with_conf (self : Collaborators) (enforce : bool) (pool : string)
    : Collaborators :=
  {| find_domain := find_domain self;
     find_recordset := find_recordset self;
     find_recordsets := find_recordsets self;
     get_master_by_ip := get_master_by_ip self;
     resolver_query := resolver_query self;
     rdatatype_to_text := rdatatype_to_text self;
     query_enforce_tsig := enforce;
     default_pool_id := pool |}.

(** The same message with the record type of its questions replaced. *)
Definition with_rdtype (request : Request) (t : Z) : Request :=
  {| req_id := req_id request;
     req_flags := req_flags request;
     question := (λ q, {| dns.name := dns.name q;
                          dns.rdclass := dns.rdclass q;
                          dns.rdtype := t |}) <$> question request;
     environ := environ request |}.

(** What a response carries apart from its copy of the question section. *)
Definition payload (response : dns.Response) : Z * Z * list (option dns.RRset) :=
  (dns.resp_id response, dns.resp_flags response, dns.resp_answer response).

Definition outcome_payload (r : outcome dns.Response)
    : outcome (Z * Z * list (option dns.RRset)) :=
  match r with
  | Return response => Return (payload response)
  | Raise e => Raise e
  end.

(** [e] is raised by one of the collaborators, at some arguments. *)
Definition raised_by_collaborator (self : Collaborators) (e : exn) : Prop :=
  (exists ctx criterion, find_domain self ctx criterion = Raise e)
  \/ (exists ctx criterion, find_recordset self ctx criterion = Raise e)
  \/ (exists ctx criterion, find_recordsets self ctx criterion = Raise e)
  \/ (exists ns qname rdtype, resolver_query self ns qname rdtype = Raise e).

(** The storage calls of a trace, in order. *)
Definition storage_calls (tr : list Event) : list Event :=
  omap (λ ev, match ev with
              | EFindDomain _ _ | EFindRecordset _ _ | EFindRecordsets _ _ => Some ev
              | _ => None
              end) tr.

(** The criteria of the zone lookups of a trace, in order. *)
Definition zone_lookups (tr : list Event) : list Criterion :=
  omap (λ ev, match ev with
              | EFindDomain _ criterion => Some criterion
              | _ => None
              end) tr.

(** ** The floating IP view of the v2 API
    ([src/designate/api/v2/views/floatingips.py]) *)

Module FloatingIPView.

(** Values of the dictionary [item.to_dict()] gives, and the links
    dictionary the view adds. *)
Inductive jval :=
| JStr (s : string)
| JInt (n : Z)
| JNone
| JLinks (links : gmap string string).

Section View.

(** The WSGI request, [self.base_uri] and [self._get_resource_links] of
    the base view. *)
Variable ApiRequest : Type.
Variable base_uri : string.
Variable _get_resource_links : ApiRequest -> gmap string jval -> list jval -> jval.

Definition _get_base_href : string :=
  base_uri +:+ "/v2/reverse/floatingips".

(** [":".join([a, b])]: both items have to be strings. *)
Definition join_colon (a b : jval) : outcome string :=
  match a, b with
  | JStr a, JStr b => Return (a +:+ ":" +:+ b)
  | _, _ => Raise (Other "TypeError")
  end.

(** [d[k]] *)
Definition dict_getitem (d : gmap string jval) (k : string) : outcome jval :=
  match d !! k with
  | Some v => Return v
  | None => Raise (Other "KeyError")
  end.

(** [show_basic(context, request, item)], on the dictionary
    [item.to_dict()]. *)
Definition show_basic (context : Context) (request : ApiRequest)
    (item : gmap string jval) : outcome (gmap string jval) :=
  match dict_getitem item "region" with
  | Raise e => Raise e
  | Return region =>
    match dict_getitem item "id" with
    | Raise e => Raise e
    | Return id_ =>
      match join_colon region id_ with
      | Raise e => Raise e
      | Return joined =>
        let item := <["id" := JStr joined]> item in
        (* [del item['region']] cannot fail: the key was read above *)
        let item := delete "region" item in
        match dict_getitem item "id" with
        | Raise e => Raise e
        | Return item_id =>
          let item := <["links" := _get_resource_links request item [item_id]]> item in
          Return item
        end
      end
    end
  end.

End View.

(** Does a string contain a colon? *)
Fixpoint has_colon (s : string) : bool :=
  match s with
  | EmptyString => false
  | String c s' => String.eqb (String c EmptyString) ":" || has_colon s'
  end.

End FloatingIPView.

(** ** A deployment whose collaborators answer as told *)

Module Scripted.

(** Every zone lookup gives [zone], every record-set lookup [recordset],
    every listing [listing], every remote query [remote]; the sender
    10.0.0.1 is a master of every zone. *)
Definition collaborators (zone : outcome Domain) (recordset : outcome RecordSet)
    (listing : outcome (list RecordSet)) (remote : outcome (list SOA))
    (enforce : bool) : Collaborators :=
  {| find_domain := λ _ _, zone;
     find_recordset := λ _ _, recordset;
     find_recordsets := λ _ _, listing;
     get_master_by_ip := λ _ host,
       if decide (host = "10.0.0.1") then Some host else None;
     resolver_query := λ _ _ _, remote;
     rdatatype_to_text := λ t, if t =? 1 then "A" else "TYPE";
     query_enforce_tsig := enforce;
     default_pool_id := "pool-1" |}.

(** The dictionary of a floating IP. *)
Definition floatingip : gmap string FloatingIPView.jval :=
  <["region" := FloatingIPView.JStr "RegionOne"]>
  (<["id" := FloatingIPView.JStr "5c02c519"]>
  (<["address" := FloatingIPView.JStr "192.0.2.44"]>
  (<["ptrdname" := FloatingIPView.JNone]>
  (<["ttl" := FloatingIPView.JInt 3600]> ∅)))).

(** Links as the base view builds them: the href of the item under the
    base href. *)
Definition links (base_uri : string) (request : unit)
    (item : gmap string FloatingIPView.jval) (parents : list FloatingIPView.jval)
    : FloatingIPView.jval :=
  FloatingIPView.JLinks
    {[ "self" := FloatingIPView._get_base_href base_uri +:+ "/"
                 +:+ match item !! "id" with
                     | Some (FloatingIPView.JStr s) => s
                     | _ => ""
                     end ]}.

(** The deployment of [Fixture] whose masters answer serial 101, and
    three unsigned requests to it. *)
Definition plain : Collaborators :=
  Fixture.collaborators false (Return [ {| soa_serial := 101 |} ]).

Definition www : Request :=
  Fixture.request 0 [Fixture.q "www.example.com." 1] "198.51.100.7" None.

Definition axfr : Request :=
  Fixture.request 0 [Fixture.q "example.com." 252] "198.51.100.7" None.

Definition notify : Request :=
  Fixture.request 4 [Fixture.q "example.com." 6] "10.0.0.1" None.

(** A [from_text_list] that cannot parse the address 192.0.2.7 and
    parses everything else; one that parses everything. *)
Definition picky (name : string) (ttl rdclass : Z) (rdtype : string)
    (rdata : list string) : option exn :=
  if decide ("192.0.2.7" ∈ rdata) then Some (Other "SyntaxError") else None.

Definition lenient (name : string) (ttl rdclass : Z) (rdtype : string)
    (rdata : list string) : option exn := None.

(** A message that is itself a response: the QR bit is set. *)
Definition answer_message : Request :=
  {| req_id := 4242;
     req_flags := 0x8100;
     question := [Fixture.q "www.example.com." 1];
     environ := {| context := Fixture.ctx; addr := ("198.51.100.7", 5354);
                   tsigkey := None |} |}.

End Scripted.

(** ** The handler with the failures of its two dnspython calls

    [RequestHandler] above takes [dns.message.make_response] and
    [dns.rrset.from_text_list] as calls that return.  Both can raise:
    [make_response] raises [FormError] on a message that has the QR bit
    set, and [from_text_list] raises when it cannot parse the texts it is
    given.  Here the same code is embedded with both calls as they are;
    what decides whether [from_text_list] raises is dnspython's and is a
    parameter. *)

Module WithLibrary.

Section Handler.

Variable self : Collaborators.

(** [from_text_list_error name ttl rdclass rdtype rdata] is the
    exception [dns.rrset.from_text_list] raises on these arguments,
    [None] when it returns. *)
Variable from_text_list_error : string -> Z -> Z -> string -> list string -> option exn.

(** [dns.message.make_response(request)] *)
Definition dns_message_make_response (request : Request) : M dns.Response :=
  if negb (Z.land (req_flags request) dns.flags_QR =? 0) then
    lift (Raise (Other "FormError"))
  else
    mret (make_response request).

(** [dns.rrset.from_text_list(name, ttl, rdclass, rdtype, rdata)] *)
Definition dns_rrset_from_text_list (name : string) (ttl rdclass : Z) (rdtype : string)
    (rdata : list string) : M dns.RRset :=
  match from_text_list_error name ttl rdclass rdtype rdata with
  | Some e => lift (Raise e)
  | None =>
      mret {| dns.rr_name := name;
              dns.rr_ttl := ttl;
              dns.rr_rdclass := rdclass;
              dns.rr_rdtype := rdtype;
              dns.rr_rdata := rdata |}
  end.

(** [for x in l: s = body(s, x)] *)
Fixpoint for_each {A S : Type} (l : list A) (body : S -> A -> M S) (s : S) : M S :=
  match l with
  | [] => mret s
  | x :: l => s' ← body s x; for_each l body s'
  end.

Definition _handle_query_error (request : Request) (rcode : Z) : M dns.Response :=
  response ← dns_message_make_response request;
  mret (dns.set_rcode response rcode).

Definition _convert_to_rrset (domain : Domain) (recordset : RecordSet)
    : M (option dns.RRset) :=
  let ttl :=
    match rs_ttl recordset with
    | Some t => if negb (t =? 0) then t else d_ttl domain
    | None => d_ttl domain
    end in
  let rdata :=
    foldl (λ rdata record,
             if negb (String.eqb (action record) "DELETE")
             then rdata ++ [data record] else rdata)
          [] (records recordset) in
  match rdata with
  | [] => mret None
  | _ :: _ =>
      r_rrset ← dns_rrset_from_text_list
                  (rs_name recordset) ttl dns.rdataclass_IN (rs_type recordset) rdata;
      mret (Some r_rrset)
  end.

Definition _handle_notify (request : Request) : M dns.Response :=
  let context := context (environ request) in
  response ← dns_message_make_response request;
  if negb (length (question request) =? 1)%nat then
    mret (dns.set_rcode response dns.rcode_FORMERR)
  else
    question ← getitem (question request) 0;
    let criterion : Criterion :=
      <["name" := VStr (dns.name question)]>
      (<["type" := VStr "SECONDARY"]>
      (<["deleted" := VBool false]> ∅)) in
    try_except_then
      (RequestHandler.storage_find_domain self context criterion)
      (λ e, if isinstance e DomainNotFound
            then Some (mret (dns.set_rcode response dns.rcode_NOTAUTH))
            else None)
      (λ domain,
         let notify_addr := fst (addr (environ request)) in
         match get_master_by_ip self domain notify_addr with
         | None =>
             RequestHandler.LOG WARN;;
             mret (dns.set_rcode response dns.rcode_REFUSED)
         | Some master_addr =>
             soa_answer ← RequestHandler.resolver_query_at self
                            [notify_addr] (d_name domain) "SOA";
             soa_answer_0 ← getitem soa_answer 0;
             let soa_serial := soa_serial soa_answer_0 in
             (if soa_serial =? d_serial domain then
                RequestHandler.LOG INFO
              else
                RequestHandler.LOG INFO;;
                RequestHandler.tg_add_thread_domain_sync context domain [master_addr]);;
             mret (dns.or_flags response dns.flags_AA)
         end).

Definition _handle_axfr (request : Request) : M dns.Response :=
  let context := context (environ request) in
  response ← dns_message_make_response request;
  q_rrset ← getitem (question request) 0;
  try_except_then
    (criterion ← lift (RequestHandler._domain_criterion_from_request self request
                         (Some (<["name" := VStr (dns.name q_rrset)]> ∅)));
     RequestHandler.storage_find_domain self context criterion)
    (λ e, if isinstance e DomainNotFound then
            Some (RequestHandler.LOG WARN;;
                  _handle_query_error request dns.rcode_REFUSED)
          else if isinstance e Forbidden then
            Some (RequestHandler.LOG WARN;;
                  _handle_query_error request dns.rcode_REFUSED)
          else None)
    (λ domain,
       let r_rrsets : list (option dns.RRset) := [] in
       let criterion : Criterion :=
         <["domain_id" := VStr (d_id domain)]> (<["type" := VStr "SOA"]> ∅) in
       soa_recordsets ← RequestHandler.storage_find_recordsets self context criterion;
       r_rrsets ← for_each soa_recordsets
                    (λ r_rrsets recordset,
                       r_rrset ← _convert_to_rrset domain recordset;
                       mret (r_rrsets ++ [r_rrset]))
                    r_rrsets;
       let criterion : Criterion :=
         <["domain_id" := VStr (d_id domain)]> (<["type" := VStr "!SOA"]> ∅) in
       recordsets ← RequestHandler.storage_find_recordsets self context criterion;
       r_rrsets ← for_each recordsets
                    (λ r_rrsets recordset,
                       r_rrset ← _convert_to_rrset domain recordset;
                       mret (match r_rrset with
                             | Some r_rrset => r_rrsets ++ [Some r_rrset]
                             | None => r_rrsets
                             end))
                    r_rrsets;
       r_rrsets ← for_each soa_recordsets
                    (λ r_rrsets recordset,
                       r_rrset ← _convert_to_rrset domain recordset;
                       mret (r_rrsets ++ [r_rrset]))
                    r_rrsets;
       let response := dns.set_rcode response dns.rcode_NOERROR in
       let response := dns.set_answer response r_rrsets in
       let response := dns.or_flags response dns.flags_AA in
       mret response).

Definition _handle_record_query (request : Request) : M dns.Response :=
  let context := context (environ request) in
  response ← dns_message_make_response request;
  try_except
    (q_rrset ← getitem (question request) 0;
     let criterion : Criterion :=
       <["name" := VStr (dns.name q_rrset)]>
       (<["type" := VStr (rdatatype_to_text self (dns.rdtype q_rrset))]>
       (<["domains_deleted" := VBool false]> ∅)) in
     recordset ← RequestHandler.storage_find_recordset self context criterion;
     try_except_then
       (criterion ← lift (RequestHandler._domain_criterion_from_request self request
                            (Some (<["id" := VStr (rs_domain_id recordset)]> ∅)));
        RequestHandler.storage_find_domain self context criterion)
       (λ e, if isinstance e DomainNotFound then
               Some (RequestHandler.LOG WARN;;
                     _handle_query_error request dns.rcode_REFUSED)
             else if isinstance e Forbidden then
               Some (RequestHandler.LOG WARN;;
                     _handle_query_error request dns.rcode_REFUSED)
             else None)
       (λ domain,
          r_rrset ← _convert_to_rrset domain recordset;
          let response := dns.set_rcode response dns.rcode_NOERROR in
          let response := dns.set_answer response [r_rrset] in
          let response := dns.or_flags response dns.flags_AA in
          mret response))
    (λ e, if isinstance e NotFound then
            Some (mret (dns.set_rcode response dns.rcode_REFUSED))
          else if isinstance e Forbidden then
            Some (mret (dns.set_rcode response dns.rcode_REFUSED))
          else None).

Definition __call__ (request : Request) : M dns.Response :=
  if opcode request =? dns.opcode_QUERY then
    if negb (length (question request) =? 1)%nat then
      _handle_query_error request dns.rcode_REFUSED
    else
      question_0 ← getitem (question request) 0;
      if negb (dns.rdclass question_0 =? dns.rdataclass_IN) then
        _handle_query_error request dns.rcode_REFUSED
      else
        q_rrset ← getitem (question request) 0;
        if RequestHandler.is_xfr (dns.rdtype q_rrset) then _handle_axfr request
        else _handle_record_query request
  else if opcode request =? dns.opcode_NOTIFY then
    _handle_notify request
  else
    _handle_query_error request dns.rcode_REFUSED.

End Handler.

End WithLibrary.

(** ** Failures of a request *)

(** A QUERY meets no failure: it has one question of class IN, and the
    lookups made for it return (for a transfer the zone, for a record
    query the record-set and then the zone), the zone criterion being
    granted. *)
Definition query_succeeds (self : Collaborators) (request : Request) : Prop :=
  exists q,
    question request = [q] /\ dns.rdclass q = dns.rdataclass_IN
    /\ if RequestHandler.is_xfr (dns.rdtype q) then
         exists criterion domain,
           RequestHandler._domain_criterion_from_request self request
             (Some (<["name" := VStr (dns.name q)]> ∅)) = Return criterion
           /\ find_domain self (context (environ request)) criterion = Return domain
       else
         exists recordset criterion domain,
           find_recordset self (context (environ request)) (recordset_criterion self q)
             = Return recordset
           /\ RequestHandler._domain_criterion_from_request self request
                (Some (<["id" := VStr (rs_domain_id recordset)]> ∅)) = Return criterion
           /\ find_domain self (context (environ request)) criterion = Return domain.

(** A NOTIFY meets no failure: it has one question, its SECONDARY zone
    is found and the sender is one of the zone's masters. *)
Definition notify_succeeds (self : Collaborators) (request : Request) : Prop :=
  exists q domain master_addr,
    question request = [q]
    /\ find_domain self (context (environ request)) (notify_criterion q) = Return domain
    /\ get_master_by_ip self domain (fst (addr (environ request))) = Some master_addr.

Definition no_failure (self : Collaborators) (request : Request) : Prop :=
  (opcode request = dns.opcode_QUERY /\ query_succeeds self request)
  \/ (opcode request = dns.opcode_NOTIFY /\ notify_succeeds self request).

(** The failures of a zone lookup that the [except] clauses around it
    name: DomainNotFound on every path; Forbidden for a QUERY; and, for a
    record query, the rest of the NotFound family, which the outer [try]
    of [_handle_record_query] catches. *)
Definition zone_failure_handled (request : Request) (e : exn) : Prop :=
  e = DomainNotFound
  \/ (opcode request = dns.opcode_QUERY /\ e = Forbidden)
  \/ (opcode request = dns.opcode_QUERY /\ isinstance e NotFound = true
      /\ exists q, question request = [q]
                   /\ RequestHandler.is_xfr (dns.rdtype q) = false).

(** The rcode discipline: NOERROR when the request meets no failure, an
    error rcode when it meets one. *)
Definition answered (self : Collaborators) (request : Request)
    (response : dns.Response) : Prop :=
  (no_failure self request /\ dns.rcode response = dns.rcode_NOERROR)
  \/ (~ no_failure self request
      /\ (dns.rcode response = dns.rcode_FORMERR
          \/ dns.rcode response = dns.rcode_REFUSED
          \/ dns.rcode response = dns.rcode_NOTAUTH)).

(** The record-sets the storage gives out. *)
Definition stored (self : Collaborators) (recordset : RecordSet) : Prop :=
  (exists ctx criterion, find_recordset self ctx criterion = Return recordset)
  \/ (exists ctx criterion l,
        find_recordsets self ctx criterion = Return l /\ recordset ∈ l).

(** dnspython parses what the projection of [recordset] gives it. *)
Definition projection_parses
    (from_text_list_error : string -> Z -> Z -> string -> list string -> option exn)
    (domain : Domain) (recordset : RecordSet) : Prop :=
  match RequestHandler._convert_to_rrset domain recordset with
  | Some r =>
      from_text_list_error (dns.rr_name r) (dns.rr_ttl r) (dns.rr_rdclass r)
        (dns.rr_rdtype r) (dns.rr_rdata r) = None
  | None => True
  end.

(** [e] is raised by [dns.rrset.from_text_list], at some arguments. *)
Definition raised_by_from_text_list
    (from_text_list_error : string -> Z -> Z -> string -> list string -> option exn)
    (e : exn) : Prop :=
  exists name ttl rdclass rdtype rdata,
    from_text_list_error name ttl rdclass rdtype rdata = Some e.

(** Unfolds the operations of the monad and the collaborator calls. *)
Ltac unfold_monad :=
  unfold RequestHandler.storage_find_domain, RequestHandler.storage_find_recordset,
    RequestHandler.storage_find_recordsets, RequestHandler.resolver_query_at,
    RequestHandler.tg_add_thread_domain_sync, RequestHandler.LOG,
    try_except, try_except_then, getitem, lift, call, emit,
    mbind, M_bind, mret, M_ret.

(** ** The header flags word *)

Section Flags.

Import dns.

(** Masking with a constant that shares no bit with the mask of [rcode]. *)
Lemma land_land_const (x a b : Z) : Z.land a b = 0 -> Z.land (Z.land x a) b = 0.
Proof.
  intros Hab. rewrite <- Z.land_assoc, Hab. apply Z.land_0_r.
Qed.

Lemma rcode_set_rcode (m : Response) (rc : Z) :
  0 <= rc < 16 -> rcode (set_rcode m rc) = rc.
Proof.
  intros Hrc. unfold rcode, set_rcode; simpl.
  rewrite Z.land_lor_distr_l.
  rewrite (land_land_const _ 0xFFF0 0xF) by reflexivity.
  rewrite Z.lor_0_l, <- Z.land_assoc.
  change (Z.land 0xF 0xF) with (Z.ones 4).
  rewrite Z.land_ones by lia.
  apply Z.mod_small. lia.
Qed.

Lemma rcode_or_AA (m : Response) : rcode (or_flags m flags_AA) = rcode m.
Proof.
  unfold rcode, or_flags; simpl.
  rewrite Z.land_lor_distr_l.
  change (Z.land flags_AA 0xF) with 0. apply Z.lor_0_r.
Qed.

Lemma rcode_set_answer (m : Response) l : rcode (set_answer m l) = rcode m.
Proof. reflexivity. Qed.

Lemma has_AA_or_AA (m : Response) : has_AA (or_flags m flags_AA) = true.
Proof.
  unfold has_AA, or_flags; cbn [resp_flags].
  rewrite Z.lor_spec. change (Z.testbit flags_AA 10) with true.
  apply orb_true_r.
Qed.

Lemma rcode_make_response (request : Request) :
  rcode (make_response request) = rcode_NOERROR.
Proof.
  unfold rcode, make_response, opcode_to_flags; simpl.
  rewrite Z.land_lor_distr_l.
  rewrite (land_land_const _ 0x7800 0xF) by reflexivity.
  rewrite Z.lor_0_r, <- Z.land_assoc.
  change (Z.land 0x87FF 0xF) with 0xF.
  rewrite Z.land_lor_distr_l.
  rewrite (land_land_const _ flags_RD 0xF) by reflexivity.
  reflexivity.
Qed.

Lemma answer_or_flags (m : Response) f : resp_answer (or_flags m f) = resp_answer m.
Proof. reflexivity. Qed.

Lemma answer_set_rcode (m : Response) rc : resp_answer (set_rcode m rc) = resp_answer m.
Proof. reflexivity. Qed.

End Flags.

(** ** Traces *)

Lemma resync_tasks_app (tr1 tr2 : list Event) :
  resync_tasks (tr1 ++ tr2) = resync_tasks tr1 ++ resync_tasks tr2.
Proof. apply omap_app. Qed.

Lemma remote_queries_app (tr1 tr2 : list Event) :
  remote_queries (tr1 ++ tr2) = remote_queries tr1 ++ remote_queries tr2.
Proof. apply omap_app. Qed.

(** ** The loops of the handler *)

Section Loops.

Import RequestHandler.

Lemma rdata_loop (l : list Record_) (acc : list string) :
  foldl (λ rdata record,
           if negb (String.eqb (action record) "DELETE")
           then rdata ++ [data record] else rdata) acc l
  = acc ++ (data <$> filter (λ record, action record ≠ "DELETE") l).
Proof.
  revert acc. induction l as [|r l IH]; intros acc; simpl.
  - by rewrite app_nil_r.
  - rewrite IH, filter_cons.
    destruct (String.eqb_spec (action r) "DELETE") as [Heq|Hne]; simpl.
    + by rewrite decide_False by (intros H; by apply H).
    + rewrite decide_True by done. by rewrite fmap_cons, <- app_assoc.
Qed.

Lemma append_loop {A B} (f : A -> B) (l : list A) (acc : list B) :
  foldl (λ acc x, acc ++ [f x]) acc l = acc ++ (f <$> l).
Proof.
  revert acc. induction l as [|x l IH]; intros acc; simpl.
  - by rewrite app_nil_r.
  - by rewrite IH, <- app_assoc.
Qed.

Lemma append_some_loop {A B} (f : A -> option B) (l : list A) (acc : list (option B)) :
  foldl (λ acc x, match f x with Some y => acc ++ [Some y] | None => acc end) acc l
  = acc ++ (Some <$> omap f l).
Proof.
  revert acc. induction l as [|x l IH]; intros acc; simpl.
  - by rewrite app_nil_r.
  - rewrite IH. destruct (f x); simpl; [|done].
    by rewrite <- app_assoc.
Qed.

Lemma convert_to_rrset_eq (domain : Domain) (recordset : RecordSet) :
  _convert_to_rrset domain recordset =
  match live_data recordset with
  | [] => None
  | rdata =>
      Some {| dns.rr_name := rs_name recordset;
              dns.rr_ttl := effective_ttl domain recordset;
              dns.rr_rdclass := dns.rdataclass_IN;
              dns.rr_rdtype := rs_type recordset;
              dns.rr_rdata := rdata |}
  end.
Proof.
  unfold _convert_to_rrset, live_data, effective_ttl.
  rewrite rdata_loop, app_nil_l.
  destruct (data <$> _) as [|x l]; [done|].
  do 2 f_equal. destruct (rs_ttl recordset) as [t|]; [|done].
  by destruct (t =? 0).
Qed.

End Loops.

(** ** Projection of a record-set *)

Section Projection.

Import RequestHandler.

(** C5, at a record-set whose TTL is set to 0: the emitted set carries
    the TTL of the zone, 3600, and not the record-set's own TTL. *)
Theorem convert_to_rrset_ttl_zero_uses_zone_ttl :
  rs_ttl Fixture.zero_ttl_rs = Some 0 /\
  dns.rr_ttl <$> _convert_to_rrset Fixture.zone Fixture.zero_ttl_rs = Some 3600.
Proof. split; reflexivity. Qed.

(** The TTL of an emitted set, in general. *)
Lemma emitted_ttl_is_effective_ttl (domain : Domain) (recordset : RecordSet) (r : dns.RRset) :
  _convert_to_rrset domain recordset = Some r ->
  dns.rr_ttl r = effective_ttl domain recordset.
Proof.
  rewrite convert_to_rrset_eq.
  destruct (live_data recordset); [done|]. by intros [= <-].
Qed.

(** C8: the projection of a record-set gathers the data of the records
    whose action is not DELETE, in order; it emits nothing when there is
    none, and otherwise one set with the record-set's name and type,
    class IN and exactly that data. *)
Theorem convert_to_rrset_projection (domain : Domain) (recordset : RecordSet) :
  match _convert_to_rrset domain recordset with
  | None =>
      data <$> filter (λ record, action record ≠ "DELETE") (records recordset) = []
  | Some r =>
      dns.rr_rdata r
        = data <$> filter (λ record, action record ≠ "DELETE") (records recordset)
      /\ dns.rr_rdata r ≠ []
      /\ dns.rr_name r = rs_name recordset
      /\ dns.rr_rdtype r = rs_type recordset
      /\ dns.rr_rdclass r = dns.rdataclass_IN
  end.
Proof.
  rewrite convert_to_rrset_eq. fold (live_data recordset).
  destruct (live_data recordset) as [|x l]; simpl; [done|].
  by repeat split.
Qed.

(** A record-set all of whose records are marked DELETE emits nothing. *)
Lemma convert_to_rrset_all_deleted (domain : Domain) (recordset : RecordSet) :
  Forall (λ record, action record = "DELETE") (records recordset) ->
  _convert_to_rrset domain recordset = None.
Proof.
  intros Hall. rewrite convert_to_rrset_eq. unfold live_data.
  replace (filter _ (records recordset)) with (@nil Record_); [done|].
  symmetry. induction Hall as [|r l Hr _ IH]; [done|].
  rewrite filter_cons, decide_False by (intros H; by apply H). exact IH.
Qed.

End Projection.

(** ** Building the zone criterion *)

Section Criteria.

Import RequestHandler.

Variable self : Collaborators.

Lemma domain_criterion_no_key (request : Request) (criterion : option Criterion) :
  tsigkey (environ request) = None ->
  _domain_criterion_from_request self request criterion =
    if query_enforce_tsig self then Raise Forbidden
    else Return (<["pool_id" := VStr (default_pool_id self)]> (default ∅ criterion)).
Proof. intros Hkey. unfold _domain_criterion_from_request. by rewrite Hkey. Qed.

Lemma domain_criterion_pool (request : Request) (criterion : option Criterion) key :
  tsigkey (environ request) = Some key -> scope key = "POOL" ->
  _domain_criterion_from_request self request criterion =
    Return (<["pool_id" := VStr (resource_id key)]> (default ∅ criterion)).
Proof.
  intros Hkey Hscope. unfold _domain_criterion_from_request.
  by rewrite Hkey, Hscope.
Qed.

Lemma domain_criterion_zone (request : Request) (criterion : option Criterion) key :
  tsigkey (environ request) = Some key -> scope key = "ZONE" ->
  _domain_criterion_from_request self request criterion =
    Return (<["id" := VStr (resource_id key)]> (default ∅ criterion)).
Proof.
  intros Hkey Hscope. unfold _domain_criterion_from_request.
  by rewrite Hkey, Hscope.
Qed.

Lemma domain_criterion_unsupported (request : Request) (criterion : option Criterion) key :
  tsigkey (environ request) = Some key ->
  scope key ≠ "POOL" -> scope key ≠ "ZONE" ->
  _domain_criterion_from_request self request criterion = Raise NotImplementedError.
Proof.
  intros Hkey Hpool Hzone. unfold _domain_criterion_from_request. rewrite Hkey.
  destruct (String.eqb_spec (scope key) "POOL"); [done|].
  by destruct (String.eqb_spec (scope key) "ZONE").
Qed.

Lemma domain_criterion_supported (request : Request) (criterion : option Criterion) :
  supported_scope request ->
  _domain_criterion_from_request self request criterion = Raise Forbidden
  \/ exists c, _domain_criterion_from_request self request criterion = Return c.
Proof.
  unfold supported_scope. destruct (tsigkey (environ request)) as [key|] eqn:Hkey.
  - intros [Hs|Hs]; right.
    + eexists. by apply domain_criterion_pool.
    + eexists. by apply domain_criterion_zone.
  - intros _. rewrite domain_criterion_no_key by done.
    destruct (query_enforce_tsig self); eauto.
Qed.

(** C6: the TSIG policy of criterion building.  (a) no key and signed
    queries required: fails with Forbidden; (b) no key, not required:
    pool_id is the default pool; (c) key of scope POOL: pool_id is the
    key's resource id; (d) key of scope ZONE: id is the key's resource
    id; in (b), (c), (d) every other entry of the base criterion is
    returned as it was. *)
Theorem domain_criterion_policy (request : Request) (base : Criterion) :
  (tsigkey (environ request) = None -> query_enforce_tsig self = true ->
     _domain_criterion_from_request self request (Some base) = Raise Forbidden)
  /\ (tsigkey (environ request) = None -> query_enforce_tsig self = false ->
        exists c, _domain_criterion_from_request self request (Some base) = Return c
                  /\ c !! "pool_id" = Some (VStr (default_pool_id self))
                  /\ forall k, k ≠ "pool_id" -> c !! k = base !! k)
  /\ (forall key, tsigkey (environ request) = Some key -> scope key = "POOL" ->
        exists c, _domain_criterion_from_request self request (Some base) = Return c
                  /\ c !! "pool_id" = Some (VStr (resource_id key))
                  /\ forall k, k ≠ "pool_id" -> c !! k = base !! k)
  /\ (forall key, tsigkey (environ request) = Some key -> scope key = "ZONE" ->
        exists c, _domain_criterion_from_request self request (Some base) = Return c
                  /\ c !! "id" = Some (VStr (resource_id key))
                  /\ forall k, k ≠ "id" -> c !! k = base !! k).
Proof.
  repeat split.
  - intros Hkey Henf. by rewrite domain_criterion_no_key, Henf.
  - intros Hkey Henf. rewrite domain_criterion_no_key, Henf by done.
    eexists; split; [done|]. split; [apply lookup_insert_eq|].
    intros k Hk. by apply lookup_insert_ne.
  - intros key Hkey Hscope. rewrite (domain_criterion_pool _ _ key) by done.
    eexists; split; [done|]. split; [apply lookup_insert_eq|].
    intros k Hk. by apply lookup_insert_ne.
  - intros key Hkey Hscope. rewrite (domain_criterion_zone _ _ key) by done.
    eexists; split; [done|]. split; [apply lookup_insert_eq|].
    intros k Hk. by apply lookup_insert_ne.
Qed.

End Criteria.

(** The four cases of the policy at the deployment of the examples: an
    unsigned request with and without enforcement, a pool key and a zone
    key, over a base criterion that names the zone. *)
Lemma domain_criterion_policy_witness :
  let base : Criterion := {[ "name" := VStr "example.com." ]} in
  let pool_key := {| scope := "POOL"; resource_id := "pool-9" |} in
  let zone_key := {| scope := "ZONE"; resource_id := "zone-2" |} in
  let unsigned := Fixture.request 0 [Fixture.q "example.com." 252] "10.0.0.1" None in
  let by_pool := Fixture.request 0 [Fixture.q "example.com." 252] "10.0.0.1" (Some pool_key) in
  let by_zone := Fixture.request 0 [Fixture.q "example.com." 252] "10.0.0.1" (Some zone_key) in
  RequestHandler._domain_criterion_from_request
    (Fixture.collaborators true (Return [])) unsigned (Some base) = Raise Forbidden
  /\ (exists c, RequestHandler._domain_criterion_from_request
                  (Fixture.collaborators false (Return [])) unsigned (Some base) = Return c
                /\ c !! "pool_id" = Some (VStr "pool-1")
                /\ c !! "name" = Some (VStr "example.com."))
  /\ (exists c, RequestHandler._domain_criterion_from_request
                  (Fixture.collaborators false (Return [])) by_pool (Some base) = Return c
                /\ c !! "pool_id" = Some (VStr "pool-9")
                /\ c !! "name" = Some (VStr "example.com."))
  /\ (exists c, RequestHandler._domain_criterion_from_request
                  (Fixture.collaborators false (Return [])) by_zone (Some base) = Return c
                /\ c !! "id" = Some (VStr "zone-2")
                /\ c !! "name" = Some (VStr "example.com.")).
Proof.
  intros base pool_key zone_key unsigned by_pool by_zone.
  split; [|split; [|split]].
  - apply (proj1 (domain_criterion_policy
                    (Fixture.collaborators true (Return [])) unsigned base));
      reflexivity.
  - destruct (proj1 (proj2 (domain_criterion_policy
                    (Fixture.collaborators false (Return [])) unsigned base))
                eq_refl eq_refl) as (c & Hc & Hpool & Hrest).
    exists c. split; [exact Hc|]. split; [exact Hpool|].
    rewrite Hrest by discriminate. reflexivity.
  - destruct (proj1 (proj2 (proj2 (domain_criterion_policy
                    (Fixture.collaborators false (Return [])) by_pool base)))
                pool_key eq_refl eq_refl) as (c & Hc & Hpool & Hrest).
    exists c. split; [exact Hc|]. split; [exact Hpool|].
    rewrite Hrest by discriminate. reflexivity.
  - destruct (proj2 (proj2 (proj2 (domain_criterion_policy
                    (Fixture.collaborators false (Return [])) by_zone base)))
                zone_key eq_refl eq_refl) as (c & Hc & Hid & Hrest).
    exists c. split; [exact Hc|]. split; [exact Hid|].
    rewrite Hrest by discriminate. reflexivity.
Defined.

(** ** The dispatcher *)

Section Dispatch.

Import RequestHandler.

Variable self : Collaborators.

Lemma call_query_bad_count (request : Request) (tr : list Event) :
  opcode request = dns.opcode_QUERY ->
  length (question request) ≠ 1%nat ->
  __call__ self request tr = (Return (_handle_query_error request dns.rcode_REFUSED), tr).
Proof.
  intros Hop Hlen. unfold __call__. rewrite Hop; simpl.
  destruct (Nat.eqb_spec (length (question request)) 1); [done|]. reflexivity.
Qed.

Lemma call_query_bad_class (request : Request) (q : dns.Question) (tr : list Event) :
  opcode request = dns.opcode_QUERY ->
  question request = [q] ->
  dns.rdclass q ≠ dns.rdataclass_IN ->
  __call__ self request tr = (Return (_handle_query_error request dns.rcode_REFUSED), tr).
Proof.
  intros Hop Hq Hclass. unfold __call__. rewrite Hop, Hq; simpl.
  unfold_monad; simpl.
  destruct (Z.eqb_spec (dns.rdclass q) dns.rdataclass_IN); [done|]. reflexivity.
Qed.

Lemma call_query_xfr (request : Request) (q : dns.Question) (tr : list Event) :
  opcode request = dns.opcode_QUERY ->
  question request = [q] ->
  dns.rdclass q = dns.rdataclass_IN ->
  is_xfr (dns.rdtype q) = true ->
  __call__ self request tr = _handle_axfr self request tr.
Proof.
  intros Hop Hq Hclass Hxfr. unfold __call__. rewrite Hop, Hq; simpl.
  unfold mbind, M_bind, getitem, lift; simpl.
  by rewrite Hclass, Hxfr.
Qed.

Lemma call_query_record (request : Request) (q : dns.Question) (tr : list Event) :
  opcode request = dns.opcode_QUERY ->
  question request = [q] ->
  dns.rdclass q = dns.rdataclass_IN ->
  is_xfr (dns.rdtype q) = false ->
  __call__ self request tr = _handle_record_query self request tr.
Proof.
  intros Hop Hq Hclass Hxfr. unfold __call__. rewrite Hop, Hq; simpl.
  unfold mbind, M_bind, getitem, lift; simpl.
  by rewrite Hclass, Hxfr.
Qed.

Lemma call_notify (request : Request) (tr : list Event) :
  opcode request = dns.opcode_NOTIFY ->
  __call__ self request tr = _handle_notify self request tr.
Proof. intros Hop. unfold __call__. by rewrite Hop. Qed.

Lemma call_other_opcode (request : Request) (tr : list Event) :
  opcode request ≠ dns.opcode_QUERY ->
  opcode request ≠ dns.opcode_NOTIFY ->
  __call__ self request tr = (Return (_handle_query_error request dns.rcode_REFUSED), tr).
Proof.
  intros Hq Hn. unfold __call__.
  destruct (Z.eqb_spec (opcode request) dns.opcode_QUERY); [done|].
  by destruct (Z.eqb_spec (opcode request) dns.opcode_NOTIFY).
Qed.

Lemma rcode_handle_query_error (request : Request) (rc : Z) :
  0 <= rc < 16 -> dns.rcode (_handle_query_error request rc) = rc.
Proof. intros Hrc. by apply rcode_set_rcode. Qed.

Lemma is_xfr_spec (t : Z) :
  is_xfr t = true <-> t = dns.rdatatype_AXFR \/ t = dns.rdatatype_IXFR.
Proof.
  unfold is_xfr. rewrite orb_true_iff, !Z.eqb_eq. tauto.
Qed.

(** C9: the dispatcher.  For opcode QUERY, a question section that does
    not hold exactly one question, or whose question is not of class IN,
    is answered REFUSED; otherwise type AXFR or IXFR goes to the
    zone-transfer responder and any other type to the record-query
    responder.  An opcode that is neither QUERY nor NOTIFY is answered
    REFUSED. *)
Theorem call_classification (request : Request) (tr : list Event) :
  (opcode request = dns.opcode_QUERY ->
     (length (question request) ≠ 1%nat
      \/ exists q, question request = [q] /\ dns.rdclass q ≠ dns.rdataclass_IN) ->
     exists response,
       __call__ self request tr = (Return response, tr)
       /\ dns.rcode response = dns.rcode_REFUSED)
  /\ (forall q, opcode request = dns.opcode_QUERY ->
        question request = [q] -> dns.rdclass q = dns.rdataclass_IN ->
        (dns.rdtype q = dns.rdatatype_AXFR \/ dns.rdtype q = dns.rdatatype_IXFR) ->
        __call__ self request tr = _handle_axfr self request tr)
  /\ (forall q, opcode request = dns.opcode_QUERY ->
        question request = [q] -> dns.rdclass q = dns.rdataclass_IN ->
        dns.rdtype q ≠ dns.rdatatype_AXFR -> dns.rdtype q ≠ dns.rdatatype_IXFR ->
        __call__ self request tr = _handle_record_query self request tr)
  /\ (opcode request ≠ dns.opcode_QUERY -> opcode request ≠ dns.opcode_NOTIFY ->
        exists response,
          __call__ self request tr = (Return response, tr)
          /\ dns.rcode response = dns.rcode_REFUSED).
Proof.
  split; [|split; [|split]].
  - intros Hop [Hlen|(q & Hq & Hclass)]; eexists; split.
    + by apply call_query_bad_count.
    + by apply rcode_handle_query_error.
    + by eapply call_query_bad_class.
    + by apply rcode_handle_query_error.
  - intros q Hop Hq Hclass Htype. eapply call_query_xfr; eauto.
    by apply is_xfr_spec.
  - intros q Hop Hq Hclass Hna Hni. eapply call_query_record; eauto.
    destruct (is_xfr (dns.rdtype q)) eqn:Hx; [|done].
    apply is_xfr_spec in Hx. tauto.
  - intros Hq Hn. eexists; split.
    + by apply call_other_opcode.
    + by apply rcode_handle_query_error.
Qed.

End Dispatch.

(** ** The zone-transfer responder *)

Section Axfr.

Import RequestHandler.

Variable self : Collaborators.

Lemma handle_axfr_found (request : Request) (q : dns.Question) (qs : list dns.Question)
    (criterion : Criterion) (domain : Domain) (soas others : list RecordSet)
    (tr : list Event) :
  question request = q :: qs ->
  _domain_criterion_from_request self request
    (Some (<["name" := VStr (dns.name q)]> ∅)) = Return criterion ->
  find_domain self (context (environ request)) criterion = Return domain ->
  find_recordsets self (context (environ request)) (soa_criterion domain) = Return soas ->
  find_recordsets self (context (environ request)) (non_soa_criterion domain)
    = Return others ->
  _handle_axfr self request tr =
    (Return (dns.or_flags
               (dns.set_answer (dns.set_rcode (make_response request) dns.rcode_NOERROR)
                  (axfr_answer domain soas others))
               dns.flags_AA),
     tr ++ [EFindDomain (context (environ request)) criterion]
        ++ [EFindRecordsets (context (environ request)) (soa_criterion domain)]
        ++ [EFindRecordsets (context (environ request)) (non_soa_criterion domain)]).
Proof.
  intros Hq Hcrit Hdom Hsoa Hothers.
  unfold _handle_axfr. unfold_monad. rewrite Hq; simpl.
  rewrite Hcrit, Hdom.
  fold (soa_criterion domain). rewrite Hsoa.
  fold (non_soa_criterion domain). rewrite Hothers.
  rewrite !append_loop, append_some_loop, app_nil_l.
  unfold axfr_answer. by rewrite <- !app_assoc.
Qed.

(** A failure of the zone lookup that one of the two [except] clauses
    names is answered REFUSED. *)
Lemma handle_axfr_refused (request : Request) (q : dns.Question) (qs : list dns.Question)
    (tr : list Event) :
  question request = q :: qs ->
  (_domain_criterion_from_request self request
     (Some (<["name" := VStr (dns.name q)]> ∅)) = Raise Forbidden
   \/ exists criterion e,
        _domain_criterion_from_request self request
          (Some (<["name" := VStr (dns.name q)]> ∅)) = Return criterion
        /\ find_domain self (context (environ request)) criterion = Raise e
        /\ (e = DomainNotFound \/ e = Forbidden)) ->
  exists tr',
    _handle_axfr self request tr
      = (Return (_handle_query_error request dns.rcode_REFUSED), tr').
Proof.
  intros Hq [Hcrit|(criterion & e & Hcrit & Hdom & He)];
    unfold _handle_axfr; unfold_monad; rewrite Hq; simpl; rewrite Hcrit.
  - simpl. eauto.
  - rewrite Hdom. destruct He as [-> | ->]; simpl; eauto.
Qed.

(** C2: AXFR framing.  For an AXFR request over an existing, authorized
    zone the answer section is the projected SOA sets, then the
    non-empty projections of the other record-sets, then the projected
    SOA sets again; with one SOA record-set its length is the number of
    non-empty projections plus two; the rcode is NOERROR and the AA flag
    is set; a zone with no other record-set answers SOA, SOA. *)
Theorem axfr_framing (request : Request) (q : dns.Question)
    (criterion : Criterion) (domain : Domain) (soas others : list RecordSet)
    (tr : list Event) :
  opcode request = dns.opcode_QUERY ->
  question request = [q] ->
  dns.rdclass q = dns.rdataclass_IN ->
  dns.rdtype q = dns.rdatatype_AXFR ->
  _domain_criterion_from_request self request
    (Some (<["name" := VStr (dns.name q)]> ∅)) = Return criterion ->
  find_domain self (context (environ request)) criterion = Return domain ->
  find_recordsets self (context (environ request)) (soa_criterion domain) = Return soas ->
  find_recordsets self (context (environ request)) (non_soa_criterion domain)
    = Return others ->
  exists response tr',
    __call__ self request tr = (Return response, tr')
    /\ dns.resp_answer response
         = (_convert_to_rrset domain <$> soas)
           ++ (Some <$> omap (_convert_to_rrset domain) others)
           ++ (_convert_to_rrset domain <$> soas)
    /\ (length soas = 1%nat ->
          length (dns.resp_answer response)
            = (length (omap (_convert_to_rrset domain) others) + 2)%nat)
    /\ (others = [] ->
          dns.resp_answer response
            = (_convert_to_rrset domain <$> soas) ++ (_convert_to_rrset domain <$> soas))
    /\ dns.rcode response = dns.rcode_NOERROR
    /\ dns.has_AA response = true.
Proof.
  intros Hop Hq Hclass Htype Hcrit Hdom Hsoa Hothers.
  rewrite (call_query_xfr self request q) by (rewrite ?Htype; done).
  rewrite (handle_axfr_found request q [] criterion domain soas others) by done.
  do 2 eexists. split; [done|].
  rewrite answer_or_flags. cbn [dns.set_answer dns.resp_answer].
  fold (axfr_answer domain soas others).
  split; [done|]. split; [|split; [|split]].
  - intros Hone. unfold axfr_answer.
    rewrite !length_app, !length_fmap, Hone. lia.
  - intros ->. done.
  - rewrite rcode_or_AA, rcode_set_answer. by apply rcode_set_rcode.
  - apply has_AA_or_AA.
Qed.

End Axfr.

(** ** The record-query responder *)

Section RecordQuery.

Import RequestHandler.

Variable self : Collaborators.

Lemma handle_record_query_found (request : Request) (q : dns.Question)
    (qs : list dns.Question) (recordset : RecordSet) (criterion : Criterion)
    (domain : Domain) (tr : list Event) :
  question request = q :: qs ->
  find_recordset self (context (environ request)) (recordset_criterion self q)
    = Return recordset ->
  _domain_criterion_from_request self request
    (Some (<["id" := VStr (rs_domain_id recordset)]> ∅)) = Return criterion ->
  find_domain self (context (environ request)) criterion = Return domain ->
  _handle_record_query self request tr =
    (Return (dns.or_flags
               (dns.set_answer (dns.set_rcode (make_response request) dns.rcode_NOERROR)
                  [_convert_to_rrset domain recordset])
               dns.flags_AA),
     tr ++ [EFindRecordset (context (environ request)) (recordset_criterion self q)]
        ++ [EFindDomain (context (environ request)) criterion]).
Proof.
  intros Hq Hrs Hcrit Hdom.
  unfold _handle_record_query. unfold_monad. rewrite Hq; simpl.
  fold (recordset_criterion self q). rewrite Hrs, Hcrit, Hdom.
  by rewrite <- app_assoc.
Qed.

(** A failed record-set lookup of the [NotFound] family, or one that is
    [Forbidden], is answered REFUSED before any zone is looked up. *)
Lemma handle_record_query_no_recordset (request : Request) (q : dns.Question)
    (qs : list dns.Question) (e : exn) (tr : list Event) :
  question request = q :: qs ->
  find_recordset self (context (environ request)) (recordset_criterion self q) = Raise e ->
  isinstance e NotFound = true \/ e = Forbidden ->
  _handle_record_query self request tr =
    (Return (dns.set_rcode (make_response request) dns.rcode_REFUSED),
     tr ++ [EFindRecordset (context (environ request)) (recordset_criterion self q)]).
Proof.
  intros Hq Hrs He.
  unfold _handle_record_query. unfold_monad. rewrite Hq; simpl.
  fold (recordset_criterion self q). rewrite Hrs.
  destruct He as [He | ->]; [|reflexivity].
  destruct e; try discriminate He; reflexivity.
Qed.

(** With the record-set found, a denied or failed zone lookup that an
    [except] clause names is answered REFUSED. *)
Lemma handle_record_query_refused (request : Request) (q : dns.Question)
    (qs : list dns.Question) (recordset : RecordSet) (tr : list Event) :
  question request = q :: qs ->
  find_recordset self (context (environ request)) (recordset_criterion self q)
    = Return recordset ->
  (_domain_criterion_from_request self request
     (Some (<["id" := VStr (rs_domain_id recordset)]> ∅)) = Raise Forbidden
   \/ exists criterion e,
        _domain_criterion_from_request self request
          (Some (<["id" := VStr (rs_domain_id recordset)]> ∅)) = Return criterion
        /\ find_domain self (context (environ request)) criterion = Raise e
        /\ (e = DomainNotFound \/ e = Forbidden)) ->
  exists tr',
    _handle_record_query self request tr
      = (Return (_handle_query_error request dns.rcode_REFUSED), tr').
Proof.
  intros Hq Hrs [Hcrit|(criterion & e & Hcrit & Hdom & He)];
    unfold _handle_record_query; unfold_monad; rewrite Hq; simpl;
    fold (recordset_criterion self q); rewrite Hrs, Hcrit.
  - simpl. eauto.
  - rewrite Hdom. destruct He as [-> | ->]; simpl; eauto.
Qed.

(** C10: with a TSIG key of scope ZONE the id entry of the zone-lookup
    criterion, first the id of the zone that owns the record-set, is
    overwritten with the key's resource id; the zone that is looked up
    is the key's zone, and when it exists the answer is NOERROR with the
    record-set projected against that zone, whose TTL is the fallback
    TTL, whether or not it owns the record-set. *)
Theorem zone_key_replaces_owning_zone (request : Request) (q : dns.Question)
    (key : TsigKey) (recordset : RecordSet) (domain : Domain) (tr : list Event) :
  opcode request = dns.opcode_QUERY ->
  question request = [q] ->
  dns.rdclass q = dns.rdataclass_IN ->
  dns.rdtype q ≠ dns.rdatatype_AXFR -> dns.rdtype q ≠ dns.rdatatype_IXFR ->
  tsigkey (environ request) = Some key ->
  scope key = "ZONE" ->
  find_recordset self (context (environ request)) (recordset_criterion self q)
    = Return recordset ->
  find_domain self (context (environ request)) (<["id" := VStr (resource_id key)]> ∅)
    = Return domain ->
  _domain_criterion_from_request self request
    (Some (<["id" := VStr (rs_domain_id recordset)]> ∅))
    = Return (<["id" := VStr (resource_id key)]> ∅)
  /\ exists response,
       __call__ self request tr =
         (Return response,
          tr ++ [EFindRecordset (context (environ request)) (recordset_criterion self q)]
             ++ [EFindDomain (context (environ request))
                   (<["id" := VStr (resource_id key)]> ∅)])
       /\ dns.rcode response = dns.rcode_NOERROR
       /\ dns.has_AA response = true
       /\ dns.resp_answer response = [_convert_to_rrset domain recordset]
       /\ (forall r, rs_ttl recordset = None ->
             _convert_to_rrset domain recordset = Some r ->
             dns.rr_ttl r = d_ttl domain).
Proof.
  intros Hop Hq Hclass Hna Hni Hkey Hscope Hrs Hdom.
  assert (Hcrit : _domain_criterion_from_request self request
                    (Some (<["id" := VStr (rs_domain_id recordset)]> ∅))
                  = Return (<["id" := VStr (resource_id key)]> ∅)).
  { rewrite (domain_criterion_zone self request _ key) by done.
    simpl. by rewrite insert_insert_eq. }
  split; [exact Hcrit|].
  rewrite (call_query_record self request q).
  2-4: done.
  2:{ destruct (is_xfr (dns.rdtype q)) eqn:Hx; [|done].
      apply is_xfr_spec in Hx. tauto. }
  rewrite (handle_record_query_found request q [] recordset _ domain) by done.
  eexists. split; [done|]. split; [|split; [|split]].
  - rewrite rcode_or_AA, rcode_set_answer. by apply rcode_set_rcode.
  - apply has_AA_or_AA.
  - done.
  - intros r Httl Hr. rewrite (emitted_ttl_is_effective_ttl domain recordset r Hr).
    unfold effective_ttl. by rewrite Httl.
Qed.

End RecordQuery.

(** ** The NOTIFY responder *)

Section Notify.

Import RequestHandler.

Variable self : Collaborators.

Lemma handle_notify_formerr (request : Request) (tr : list Event) :
  length (question request) ≠ 1%nat ->
  _handle_notify self request tr
    = (Return (dns.set_rcode (make_response request) dns.rcode_FORMERR), tr).
Proof.
  intros Hlen. unfold _handle_notify.
  destruct (Nat.eqb_spec (length (question request)) 1); [done|]. reflexivity.
Qed.

Lemma handle_notify_notauth (request : Request) (q : dns.Question) (tr : list Event) :
  question request = [q] ->
  find_domain self (context (environ request)) (notify_criterion q)
    = Raise DomainNotFound ->
  _handle_notify self request tr
    = (Return (dns.set_rcode (make_response request) dns.rcode_NOTAUTH),
       tr ++ [EFindDomain (context (environ request)) (notify_criterion q)]).
Proof.
  intros Hq Hdom. unfold _handle_notify. unfold_monad. rewrite Hq; simpl.
  fold (notify_criterion q). by rewrite Hdom.
Qed.

Lemma handle_notify_non_master (request : Request) (q : dns.Question)
    (domain : Domain) (tr : list Event) :
  question request = [q] ->
  find_domain self (context (environ request)) (notify_criterion q) = Return domain ->
  get_master_by_ip self domain (fst (addr (environ request))) = None ->
  _handle_notify self request tr
    = (Return (dns.set_rcode (make_response request) dns.rcode_REFUSED),
       tr ++ [EFindDomain (context (environ request)) (notify_criterion q)]
          ++ [ELog WARN]).
Proof.
  intros Hq Hdom Hmaster. unfold _handle_notify. unfold_monad. rewrite Hq; simpl.
  fold (notify_criterion q). rewrite Hdom, Hmaster.
  by rewrite <- app_assoc.
Qed.

Lemma handle_notify_master (request : Request) (q : dns.Question)
    (domain : Domain) (master_addr : string) (soa : SOA) (rest : list SOA)
    (tr : list Event) :
  question request = [q] ->
  find_domain self (context (environ request)) (notify_criterion q) = Return domain ->
  get_master_by_ip self domain (fst (addr (environ request))) = Some master_addr ->
  resolver_query self [fst (addr (environ request))] (d_name domain) "SOA"
    = Return (soa :: rest) ->
  _handle_notify self request tr
    = (Return (dns.or_flags (make_response request) dns.flags_AA),
       tr ++ [EFindDomain (context (environ request)) (notify_criterion q)]
          ++ [EResolverQuery [fst (addr (environ request))] (d_name domain) "SOA"]
          ++ [ELog INFO]
          ++ (if soa_serial soa =? d_serial domain then []
              else [EAddThread (context (environ request)) domain [master_addr]])).
Proof.
  intros Hq Hdom Hmaster Hsoa. unfold _handle_notify. unfold_monad. rewrite Hq; simpl.
  fold (notify_criterion q). rewrite Hdom, Hmaster, Hsoa; simpl.
  destruct (soa_serial soa =? d_serial domain); simpl.
  - by rewrite <- !app_assoc.
  - by rewrite <- !app_assoc.
Qed.

(** C3: a NOTIFY from a registered master of the matched SECONDARY
    zone.  When the serial the sender answers equals the stored serial
    no re-sync task is scheduled; when it differs exactly one is, for
    this zone, with the master's address; both ways the response is
    NOERROR with the AA flag set. *)
Theorem notify_serial_comparison (request : Request) (q : dns.Question)
    (domain : Domain) (master_addr : string) (soa : SOA) (rest : list SOA)
    (tr : list Event) :
  opcode request = dns.opcode_NOTIFY ->
  question request = [q] ->
  find_domain self (context (environ request)) (notify_criterion q) = Return domain ->
  get_master_by_ip self domain (fst (addr (environ request))) = Some master_addr ->
  resolver_query self [fst (addr (environ request))] (d_name domain) "SOA"
    = Return (soa :: rest) ->
  exists response tr',
    __call__ self request tr = (Return response, tr')
    /\ dns.rcode response = dns.rcode_NOERROR
    /\ dns.has_AA response = true
    /\ (soa_serial soa = d_serial domain -> resync_tasks tr' = resync_tasks tr)
    /\ (soa_serial soa ≠ d_serial domain ->
          resync_tasks tr'
            = resync_tasks tr ++ [(context (environ request), domain, [master_addr])]).
Proof.
  intros Hop Hq Hdom Hmaster Hsoa.
  rewrite call_notify by done.
  rewrite (handle_notify_master request q domain master_addr soa rest) by done.
  do 2 eexists. split; [done|]. split; [|split; [|split]].
  - rewrite rcode_or_AA. apply rcode_make_response.
  - apply has_AA_or_AA.
  - intros Heq. apply Z.eqb_eq in Heq. rewrite Heq.
    rewrite !resync_tasks_app; simpl. by rewrite !app_nil_r.
  - intros Hne. apply Z.eqb_neq in Hne. rewrite Hne.
    rewrite !resync_tasks_app; simpl. done.
Qed.

(** C7: a NOTIFY with one question matching a SECONDARY zone, from an
    address that is not one of the zone's masters, is answered REFUSED;
    no re-sync task is scheduled and the sender is not queried: the
    only calls made are the zone lookup and the warning. *)
Theorem notify_from_non_master (request : Request) (q : dns.Question)
    (domain : Domain) (tr : list Event) :
  opcode request = dns.opcode_NOTIFY ->
  question request = [q] ->
  find_domain self (context (environ request)) (notify_criterion q) = Return domain ->
  get_master_by_ip self domain (fst (addr (environ request))) = None ->
  exists response tr',
    __call__ self request tr = (Return response, tr')
    /\ dns.rcode response = dns.rcode_REFUSED
    /\ resync_tasks tr' = resync_tasks tr
    /\ remote_queries tr' = remote_queries tr
    /\ tr' = tr ++ [EFindDomain (context (environ request)) (notify_criterion q);
                    ELog WARN].
Proof.
  intros Hop Hq Hdom Hmaster.
  rewrite call_notify by done.
  rewrite (handle_notify_non_master request q domain) by done.
  do 2 eexists. split; [done|]. split; [|split; [|split]].
  - by apply rcode_set_rcode.
  - rewrite !resync_tasks_app; simpl. by rewrite !app_nil_r.
  - rewrite !remote_queries_app; simpl. by rewrite !app_nil_r.
  - done.
Qed.

End Notify.

(** ** Failures that leave the handler *)

Section Propagation.

Import RequestHandler.

Variable self : Collaborators.

Lemma handle_axfr_unsupported_scope (request : Request) (q : dns.Question)
    (qs : list dns.Question) (key : TsigKey) (tr : list Event) :
  question request = q :: qs ->
  tsigkey (environ request) = Some key ->
  scope key ≠ "POOL" -> scope key ≠ "ZONE" ->
  _handle_axfr self request tr = (Raise NotImplementedError, tr).
Proof.
  intros Hq Hkey Hpool Hzone.
  unfold _handle_axfr. unfold_monad. rewrite Hq; simpl.
  by rewrite (domain_criterion_unsupported self request _ key).
Qed.

Lemma handle_record_query_unsupported_scope (request : Request) (q : dns.Question)
    (qs : list dns.Question) (key : TsigKey) (recordset : RecordSet)
    (tr : list Event) :
  question request = q :: qs ->
  tsigkey (environ request) = Some key ->
  scope key ≠ "POOL" -> scope key ≠ "ZONE" ->
  find_recordset self (context (environ request)) (recordset_criterion self q)
    = Return recordset ->
  _handle_record_query self request tr
    = (Raise NotImplementedError,
       tr ++ [EFindRecordset (context (environ request)) (recordset_criterion self q)]).
Proof.
  intros Hq Hkey Hpool Hzone Hrs.
  unfold _handle_record_query. unfold_monad. rewrite Hq; simpl.
  fold (recordset_criterion self q). rewrite Hrs.
  by rewrite (domain_criterion_unsupported self request _ key).
Qed.

(** A failure of the remote SOA query leaves [_handle_notify] as it is. *)
Lemma handle_notify_remote_failure (request : Request) (q : dns.Question)
    (domain : Domain) (master_addr : string) (e : exn) (tr : list Event) :
  question request = [q] ->
  find_domain self (context (environ request)) (notify_criterion q) = Return domain ->
  get_master_by_ip self domain (fst (addr (environ request))) = Some master_addr ->
  resolver_query self [fst (addr (environ request))] (d_name domain) "SOA" = Raise e ->
  _handle_notify self request tr
    = (Raise e,
       tr ++ [EFindDomain (context (environ request)) (notify_criterion q)]
          ++ [EResolverQuery [fst (addr (environ request))] (d_name domain) "SOA"]).
Proof.
  intros Hq Hdom Hmaster Hsoa. unfold _handle_notify. unfold_monad. rewrite Hq; simpl.
  fold (notify_criterion q). rewrite Hdom, Hmaster, Hsoa.
  by rewrite <- app_assoc.
Qed.

(** C4, as the code has it: with a TSIG key whose scope is neither POOL
    nor ZONE criterion building fails with NotImplementedError, and
    neither responder handles that failure: the zone-transfer responder
    raises it before any storage call, the record-query responder raises
    it once the record-set is found. *)
Theorem unsupported_scope_propagates (request : Request) (q : dns.Question)
    (qs : list dns.Question) (key : TsigKey) (tr : list Event) :
  question request = q :: qs ->
  tsigkey (environ request) = Some key ->
  scope key ≠ "POOL" -> scope key ≠ "ZONE" ->
  (forall base, _domain_criterion_from_request self request base
                = Raise NotImplementedError)
  /\ _handle_axfr self request tr = (Raise NotImplementedError, tr)
  /\ (forall recordset,
        find_recordset self (context (environ request)) (recordset_criterion self q)
          = Return recordset ->
        _handle_record_query self request tr
          = (Raise NotImplementedError,
             tr ++ [EFindRecordset (context (environ request))
                      (recordset_criterion self q)])).
Proof.
  intros Hq Hkey Hpool Hzone. split; [|split].
  - intros base. by apply (domain_criterion_unsupported self request base key).
  - by apply (handle_axfr_unsupported_scope request q qs key).
  - intros recordset Hrs.
    by apply (handle_record_query_unsupported_scope request q qs key recordset).
Qed.

Lemma handler_rcode_error (request : Request) (rc : Z) :
  0 <= rc < 16 -> handler_rcode rc ->
  handler_rcode (dns.rcode (dns.set_rcode (make_response request) rc)).
Proof. intros Hrc H. by rewrite rcode_set_rcode. Qed.

Lemma handler_rcode_answer (request : Request) (l : list (option dns.RRset)) :
  handler_rcode
    (dns.rcode (dns.or_flags
                  (dns.set_answer
                     (dns.set_rcode (make_response request) dns.rcode_NOERROR) l)
                  dns.flags_AA)).
Proof.
  rewrite rcode_or_AA, rcode_set_answer, rcode_set_rcode by done. by left.
Qed.

End Propagation.

(** ** The theorems at the deployment of the examples *)

Section Examples.

Import RequestHandler.

(** A transfer of example.com.: SOA, the two record-sets that have
    live records, SOA. *)
Lemma axfr_framing_witness :
  let self := Fixture.collaborators false (Return []) in
  let request := Fixture.request 0 [Fixture.q "example.com." 252] "198.51.100.7" None in
  exists response tr',
    __call__ self request [] = (Return response, tr')
    /\ dns.resp_answer response
         = [ _convert_to_rrset Fixture.zone Fixture.soa_rs;
             _convert_to_rrset Fixture.zone Fixture.www_rs;
             _convert_to_rrset Fixture.zone Fixture.zero_ttl_rs;
             _convert_to_rrset Fixture.zone Fixture.soa_rs ]
    /\ length (dns.resp_answer response) = 4%nat
    /\ dns.rcode response = dns.rcode_NOERROR
    /\ dns.has_AA response = true.
Proof.
  intros self request.
  destruct (axfr_framing self request (Fixture.q "example.com." 252)
              (<["pool_id" := VStr "pool-1"]> (<["name" := VStr "example.com."]> ∅))
              Fixture.zone [Fixture.soa_rs]
              [Fixture.www_rs; Fixture.gone_rs; Fixture.zero_ttl_rs] [])
    as (response & tr' & Hcall & Hanswer & Hlen & _ & Hrcode & Haa);
    try (vm_compute; reflexivity).
  exists response, tr'. split; [exact Hcall|].
  split; [rewrite Hanswer; vm_compute; reflexivity|].
  split; [rewrite (Hlen eq_refl); vm_compute; reflexivity|].
  split; [exact Hrcode|exact Haa].
Defined.

(** A NOTIFY for example.com. from its master 10.0.0.1: the master
    answers serial 101 against the stored 100 and one re-sync is
    scheduled; it answers 100 and none is. *)
Lemma notify_serial_comparison_witness :
  let notify := Fixture.request 4 [Fixture.q "example.com." 6] "10.0.0.1" None in
  (exists response tr',
     __call__ (Fixture.collaborators false (Return [ {| soa_serial := 101 |} ]))
       notify [] = (Return response, tr')
     /\ dns.rcode response = dns.rcode_NOERROR
     /\ dns.has_AA response = true
     /\ resync_tasks tr' = [(Fixture.ctx, Fixture.zone, ["10.0.0.1"])])
  /\ (exists response tr',
        __call__ (Fixture.collaborators false (Return [ {| soa_serial := 100 |} ]))
          notify [] = (Return response, tr')
        /\ dns.rcode response = dns.rcode_NOERROR
        /\ dns.has_AA response = true
        /\ resync_tasks tr' = []).
Proof.
  intros notify. split.
  - destruct (notify_serial_comparison
                (Fixture.collaborators false (Return [ {| soa_serial := 101 |} ]))
                notify (Fixture.q "example.com." 6) Fixture.zone "10.0.0.1"
                {| soa_serial := 101 |} [] [])
      as (response & tr' & Hcall & Hrcode & Haa & _ & Hdiff);
      try (vm_compute; reflexivity).
    exists response, tr'. split; [exact Hcall|]. split; [exact Hrcode|].
    split; [exact Haa|]. apply Hdiff. discriminate.
  - destruct (notify_serial_comparison
                (Fixture.collaborators false (Return [ {| soa_serial := 100 |} ]))
                notify (Fixture.q "example.com." 6) Fixture.zone "10.0.0.1"
                {| soa_serial := 100 |} [] [])
      as (response & tr' & Hcall & Hrcode & Haa & Hsame & _);
      try (vm_compute; reflexivity).
    exists response, tr'. split; [exact Hcall|]. split; [exact Hrcode|].
    split; [exact Haa|]. apply Hsame. reflexivity.
Defined.

(** A NOTIFY for example.com. from 203.0.113.5, which is not a master. *)
Lemma notify_from_non_master_witness :
  let self := Fixture.collaborators false (Return [ {| soa_serial := 101 |} ]) in
  let notify := Fixture.request 4 [Fixture.q "example.com." 6] "203.0.113.5" None in
  exists response tr',
    __call__ self notify [] = (Return response, tr')
    /\ dns.rcode response = dns.rcode_REFUSED
    /\ resync_tasks tr' = []
    /\ remote_queries tr' = [].
Proof.
  intros self notify.
  destruct (notify_from_non_master self notify (Fixture.q "example.com." 6)
              Fixture.zone [])
    as (response & tr' & Hcall & Hrcode & Htasks & Hqueries & _);
    try (vm_compute; reflexivity).
  exists response, tr'. split; [exact Hcall|]. split; [exact Hrcode|].
  split; [exact Htasks|exact Hqueries].
Defined.

(** The dispatcher on: a QUERY with two questions, an IXFR, a query for
    an A record, and an UPDATE. *)
Lemma call_classification_witness :
  let self := Fixture.collaborators false (Return []) in
  let two := Fixture.request 0 [Fixture.q "example.com." 1; Fixture.q "example.com." 6]
               "198.51.100.7" None in
  let ixfr := Fixture.request 0 [Fixture.q "example.com." 251] "198.51.100.7" None in
  let www := Fixture.request 0 [Fixture.q "www.example.com." 1] "198.51.100.7" None in
  let update := Fixture.request 5 [Fixture.q "example.com." 6] "198.51.100.7" None in
  (exists response, __call__ self two [] = (Return response, [])
                    /\ dns.rcode response = dns.rcode_REFUSED)
  /\ __call__ self ixfr [] = _handle_axfr self ixfr []
  /\ __call__ self www [] = _handle_record_query self www []
  /\ (exists response, __call__ self update [] = (Return response, [])
                       /\ dns.rcode response = dns.rcode_REFUSED).
Proof.
  intros self two ixfr www update. split; [|split; [|split]].
  - apply (proj1 (call_classification self two [])).
    + reflexivity.
    + left. discriminate.
  - apply (proj1 (proj2 (call_classification self ixfr []))
             (Fixture.q "example.com." 251)); try reflexivity.
    right. reflexivity.
  - apply (proj1 (proj2 (proj2 (call_classification self www [])))
             (Fixture.q "www.example.com." 1)); try reflexivity; discriminate.
  - apply (proj2 (proj2 (proj2 (call_classification self update []))));
      vm_compute; discriminate.
Defined.

(** A query for www.example.com. A signed with a key for zone-2: the
    record-set belongs to zone-1, the answer is NOERROR with the TTL of
    zone-2. *)
Lemma zone_key_replaces_owning_zone_witness :
  let self := Fixture.collaborators false (Return []) in
  let key := {| scope := "ZONE"; resource_id := "zone-2" |} in
  let www := Fixture.request 0 [Fixture.q "www.example.com." 1] "198.51.100.7"
               (Some key) in
  rs_domain_id Fixture.www_rs ≠ d_id Fixture.other_zone
  /\ exists response tr',
       __call__ self www [] = (Return response, tr')
       /\ dns.rcode response = dns.rcode_NOERROR
       /\ dns.resp_answer response
            = [ Some {| dns.rr_name := "www.example.com.";
                        dns.rr_ttl := d_ttl Fixture.other_zone;
                        dns.rr_rdclass := dns.rdataclass_IN;
                        dns.rr_rdtype := "A";
                        dns.rr_rdata := ["192.0.2.1"; "192.0.2.3"] |} ].
Proof.
  intros self key www. split; [discriminate|].
  destruct (zone_key_replaces_owning_zone self www (Fixture.q "www.example.com." 1)
              key Fixture.www_rs Fixture.other_zone [])
    as (_ & response & Hcall & Hrcode & _ & Hanswer & _);
    try (vm_compute; reflexivity); try discriminate.
  eexists response, _. split; [exact Hcall|]. split; [exact Hrcode|].
  rewrite Hanswer. vm_compute. reflexivity.
Defined.

(** C4 as stated fails: with a key of scope TENANT neither responder
    returns a REFUSED response. *)
Lemma unsupported_scope_is_not_refused :
  let self := Fixture.collaborators false (Return []) in
  let key := {| scope := "TENANT"; resource_id := "tenant-1" |} in
  let axfr := Fixture.request 0 [Fixture.q "example.com." 252] "198.51.100.7"
                (Some key) in
  let www := Fixture.request 0 [Fixture.q "www.example.com." 1] "198.51.100.7"
               (Some key) in
  scope key ≠ "POOL" /\ scope key ≠ "ZONE"
  /\ ~ (exists response tr',
          _handle_axfr self axfr [] = (Return response, tr')
          /\ dns.rcode response = dns.rcode_REFUSED)
  /\ ~ (exists response tr',
          _handle_record_query self www [] = (Return response, tr')
          /\ dns.rcode response = dns.rcode_REFUSED).
Proof.
  intros self key axfr www.
  split; [discriminate|]. split; [discriminate|]. split.
  - intros (response & tr' & Hcall & _). vm_compute in Hcall. discriminate Hcall.
  - intros (response & tr' & Hcall & _). vm_compute in Hcall. discriminate Hcall.
Qed.

(** The same two requests, through the amended statement. *)
Lemma unsupported_scope_propagates_witness :
  let self := Fixture.collaborators false (Return []) in
  let key := {| scope := "TENANT"; resource_id := "tenant-1" |} in
  let axfr := Fixture.request 0 [Fixture.q "example.com." 252] "198.51.100.7"
                (Some key) in
  let www := Fixture.request 0 [Fixture.q "www.example.com." 1] "198.51.100.7"
               (Some key) in
  _handle_axfr self axfr [] = (Raise NotImplementedError, [])
  /\ _handle_record_query self www []
     = (Raise NotImplementedError,
        [EFindRecordset Fixture.ctx
           (recordset_criterion self (Fixture.q "www.example.com." 1))]).
Proof.
  intros self key axfr www. split.
  - apply (proj1 (proj2 (unsupported_scope_propagates self axfr
                           (Fixture.q "example.com." 252) [] key []
                           eq_refl eq_refl ltac:(discriminate) ltac:(discriminate)))).
  - apply (proj2 (proj2 (unsupported_scope_propagates self www
                           (Fixture.q "www.example.com." 1) [] key []
                           eq_refl eq_refl ltac:(discriminate) ltac:(discriminate)))
             Fixture.www_rs).
    vm_compute. reflexivity.
Defined.

End Examples.

(** ** More on the header flags word *)

Section FlagsAA.

Import dns.

Lemma has_AA_set_rcode (m : Response) (rc : Z) : has_AA (set_rcode m rc) = has_AA m.
Proof.
  unfold has_AA, set_rcode; cbn [resp_flags].
  rewrite Z.lor_spec, !Z.land_spec.
  change (Z.testbit 0xFFF0 10) with true. change (Z.testbit 0xF 10) with false.
  by rewrite andb_true_r, andb_false_r, orb_false_r.
Qed.

Lemma has_AA_make_response (request : Request) : has_AA (make_response request) = false.
Proof.
  unfold has_AA, make_response, opcode_to_flags; cbn [resp_flags].
  rewrite !Z.lor_spec, !Z.land_spec, Z.lor_spec, Z.land_spec.
  change (Z.testbit flags_QR 10) with false.
  change (Z.testbit flags_RD 10) with false.
  change (Z.testbit 0x7800 10) with false.
  by rewrite !andb_false_r.
Qed.

Lemma has_AA_set_answer (m : Response) l : has_AA (set_answer m l) = has_AA m.
Proof. reflexivity. Qed.

Lemma has_AA_error (request : Request) (rc : Z) :
  has_AA (set_rcode (make_response request) rc) = false.
Proof. by rewrite has_AA_set_rcode, has_AA_make_response. Qed.

End FlagsAA.

(** ** The NOTIFY responder: refusals, failures and what it ignores *)

Section NotifyEdges.

Import RequestHandler.

Variable self : Collaborators.

(** X1: a NOTIFY whose question section does not hold exactly one
    question, the empty section included, is answered FORMERR without the
    AA flag and with an empty answer, and no collaborator is called. *)
Theorem notify_malformed_question (request : Request) (tr : list Event) :
  opcode request = dns.opcode_NOTIFY ->
  length (question request) ≠ 1%nat ->
  exists response,
    __call__ self request tr = (Return response, tr)
    /\ dns.rcode response = dns.rcode_FORMERR
    /\ dns.has_AA response = false
    /\ dns.resp_answer response = [].
Proof.
  intros Hop Hlen. rewrite call_notify by done.
  rewrite handle_notify_formerr by done.
  eexists. split; [done|]. split; [by apply rcode_set_rcode|].
  split; [apply has_AA_error|done].
Qed.

(** X2: a NOTIFY for a name the storage knows no SECONDARY zone for is
    answered NOTAUTH without the AA flag; the zone lookup, by name, type
    SECONDARY and deleted False, is the only call made: the sender is not
    checked against any master list and is not queried. *)
Theorem notify_unknown_zone (request : Request) (q : dns.Question) (tr : list Event) :
  opcode request = dns.opcode_NOTIFY ->
  question request = [q] ->
  find_domain self (context (environ request))
    (<["name" := VStr (dns.name q)]>
       (<["type" := VStr "SECONDARY"]> (<["deleted" := VBool false]> ∅)))
    = Raise DomainNotFound ->
  exists response,
    __call__ self request tr
      = (Return response,
         tr ++ [EFindDomain (context (environ request))
                  (<["name" := VStr (dns.name q)]>
                     (<["type" := VStr "SECONDARY"]> (<["deleted" := VBool false]> ∅)))])
    /\ dns.rcode response = dns.rcode_NOTAUTH
    /\ dns.has_AA response = false
    /\ dns.resp_answer response = [].
Proof.
  intros Hop Hq Hdom. rewrite call_notify by done.
  rewrite (handle_notify_notauth self request q) by done.
  eexists. split; [done|]. split; [by apply rcode_set_rcode|].
  split; [apply has_AA_error|done].
Qed.

(** X3: in the NOTIFY responder only DomainNotFound is handled: any
    other failure of the zone lookup, Forbidden included, leaves the
    handler as it is, after that one call. *)
Theorem notify_zone_lookup_failure_propagates (request : Request) (q : dns.Question)
    (e : exn) (tr : list Event) :
  opcode request = dns.opcode_NOTIFY ->
  question request = [q] ->
  find_domain self (context (environ request)) (notify_criterion q) = Raise e ->
  e ≠ DomainNotFound ->
  __call__ self request tr
    = (Raise e, tr ++ [EFindDomain (context (environ request)) (notify_criterion q)]).
Proof.
  intros Hop Hq Hdom He. rewrite call_notify by done.
  unfold _handle_notify. unfold_monad. rewrite Hq; simpl.
  fold (notify_criterion q). rewrite Hdom.
  unfold isinstance. by rewrite bool_decide_eq_false_2.
Qed.

(** X4: a NOTIFY from a registered master makes exactly one remote
    query, whatever its outcome: to the sender's address alone, for the
    name of the stored zone. *)
Theorem notify_queries_sender_only (request : Request) (q : dns.Question)
    (domain : Domain) (master_addr : string) (tr : list Event) :
  opcode request = dns.opcode_NOTIFY ->
  question request = [q] ->
  find_domain self (context (environ request)) (notify_criterion q) = Return domain ->
  get_master_by_ip self domain (fst (addr (environ request))) = Some master_addr ->
  remote_queries (snd (__call__ self request tr))
    = remote_queries tr ++ [([fst (addr (environ request))], d_name domain)].
Proof.
  intros Hop Hq Hdom Hmaster. rewrite call_notify by done.
  destruct (resolver_query self [fst (addr (environ request))] (d_name domain) "SOA")
    as [[|soa rest]|e] eqn:Hsoa.
  - unfold _handle_notify. unfold_monad. rewrite Hq; simpl.
    fold (notify_criterion q). rewrite Hdom, Hmaster, Hsoa; simpl.
    rewrite !remote_queries_app; simpl. by rewrite ?app_nil_r.
  - rewrite (handle_notify_master self request q domain master_addr soa rest) by done.
    simpl. rewrite !remote_queries_app; simpl.
    destruct (soa_serial soa =? d_serial domain); simpl; by rewrite ?app_nil_r.
  - rewrite (handle_notify_remote_failure self request q domain master_addr e) by done.
    simpl. rewrite !remote_queries_app; simpl. by rewrite ?app_nil_r.
Qed.

(** X5: when the remote SOA query fails, or answers with no record, the
    NOTIFY responder raises (the resolver's exception, or IndexError) and
    no re-sync task has been scheduled. *)
Theorem notify_remote_failure_schedules_nothing (request : Request) (q : dns.Question)
    (domain : Domain) (master_addr : string) (e : exn) (tr : list Event) :
  opcode request = dns.opcode_NOTIFY ->
  question request = [q] ->
  find_domain self (context (environ request)) (notify_criterion q) = Return domain ->
  get_master_by_ip self domain (fst (addr (environ request))) = Some master_addr ->
  (resolver_query self [fst (addr (environ request))] (d_name domain) "SOA" = Raise e
   \/ (resolver_query self [fst (addr (environ request))] (d_name domain) "SOA" = Return []
       /\ e = IndexError)) ->
  exists tr',
    __call__ self request tr = (Raise e, tr')
    /\ resync_tasks tr' = resync_tasks tr.
Proof.
  intros Hop Hq Hdom Hmaster [Hsoa|[Hsoa ->]]; rewrite call_notify by done.
  - rewrite (handle_notify_remote_failure self request q domain master_addr e) by done.
    eexists. split; [done|]. rewrite !resync_tasks_app; simpl. by rewrite ?app_nil_r.
  - unfold _handle_notify. unfold_monad. rewrite Hq; simpl.
    fold (notify_criterion q). rewrite Hdom, Hmaster, Hsoa; simpl.
    eexists. split; [done|]. rewrite !resync_tasks_app; simpl. by rewrite ?app_nil_r.
Qed.

(** X6: the NOTIFY responder looks neither at the TSIG key of the
    request nor at the two configuration options: a NOTIFY is handled the
    same signed or unsigned, with signed queries enforced or not. *)
Theorem notify_ignores_tsig (request : Request) (key : option TsigKey)
    (enforce : bool) (pool : string) (tr : list Event) :
  opcode request = dns.opcode_NOTIFY ->
  __call__ (with_conf self enforce pool) (with_tsigkey request key) tr
    = __call__ self request tr.
Proof.
  intros Hop.
  rewrite (call_notify (with_conf self enforce pool) (with_tsigkey request key)) by done.
  rewrite call_notify by done. reflexivity.
Qed.

End NotifyEdges.

(** ** The query responders: refusals and degenerate answers *)

Section QueryEdges.

Import RequestHandler.

Variable self : Collaborators.

Lemma zone_lookups_app (tr1 tr2 : list Event) :
  zone_lookups (tr1 ++ tr2) = zone_lookups tr1 ++ zone_lookups tr2.
Proof. apply omap_app. Qed.

Lemma storage_calls_app (tr1 tr2 : list Event) :
  storage_calls (tr1 ++ tr2) = storage_calls tr1 ++ storage_calls tr2.
Proof. apply omap_app. Qed.

Lemma not_xfr (t : Z) :
  t ≠ dns.rdatatype_AXFR -> t ≠ dns.rdatatype_IXFR -> is_xfr t = false.
Proof.
  intros Ha Hi. destruct (is_xfr t) eqn:Hx; [|done].
  apply is_xfr_spec in Hx. tauto.
Qed.

(** X7: a query for a record-set the storage does not find (any error of
    the NotFound family, or Forbidden) is answered REFUSED, without the AA
    flag and with an empty answer; the record-set lookup, by name, type
    text and domains_deleted False, is the only call made. *)
Theorem record_query_not_found (request : Request) (q : dns.Question) (e : exn)
    (tr : list Event) :
  opcode request = dns.opcode_QUERY ->
  question request = [q] ->
  dns.rdclass q = dns.rdataclass_IN ->
  dns.rdtype q ≠ dns.rdatatype_AXFR -> dns.rdtype q ≠ dns.rdatatype_IXFR ->
  find_recordset self (context (environ request))
    (<["name" := VStr (dns.name q)]>
       (<["type" := VStr (rdatatype_to_text self (dns.rdtype q))]>
          (<["domains_deleted" := VBool false]> ∅))) = Raise e ->
  e = RecordSetNotFound \/ e = DomainNotFound \/ e = NotFound \/ e = Forbidden ->
  exists response,
    __call__ self request tr
      = (Return response,
         tr ++ [EFindRecordset (context (environ request))
                  (<["name" := VStr (dns.name q)]>
                     (<["type" := VStr (rdatatype_to_text self (dns.rdtype q))]>
                        (<["domains_deleted" := VBool false]> ∅)))])
    /\ dns.rcode response = dns.rcode_REFUSED
    /\ dns.has_AA response = false
    /\ dns.resp_answer response = [].
Proof.
  intros Hop Hq Hclass Hna Hni Hrs He.
  rewrite (call_query_record self request q) by auto using not_xfr.
  rewrite (handle_record_query_no_recordset self request q [] e); [|done|done|].
  - eexists. split; [done|]. split; [by apply rcode_set_rcode|].
    split; [apply has_AA_error|done].
  - destruct He as [->|[->|[->| ->]]]; auto.
Qed.

(** X8: any other failure of the record-set lookup is not handled: it
    leaves the handler, after that one call. *)
Theorem record_query_lookup_failure_propagates (request : Request) (q : dns.Question)
    (e : exn) (tr : list Event) :
  opcode request = dns.opcode_QUERY ->
  question request = [q] ->
  dns.rdclass q = dns.rdataclass_IN ->
  dns.rdtype q ≠ dns.rdatatype_AXFR -> dns.rdtype q ≠ dns.rdatatype_IXFR ->
  find_recordset self (context (environ request)) (recordset_criterion self q) = Raise e ->
  isinstance e NotFound = false -> e ≠ Forbidden ->
  __call__ self request tr
    = (Raise e,
       tr ++ [EFindRecordset (context (environ request)) (recordset_criterion self q)]).
Proof.
  intros Hop Hq Hclass Hna Hni Hrs Hnf Hforb.
  rewrite (call_query_record self request q) by auto using not_xfr.
  unfold _handle_record_query. unfold_monad. rewrite Hq; simpl.
  fold (recordset_criterion self q). rewrite Hrs.
  destruct e; try discriminate Hnf; try (by destruct Hforb); reflexivity.
Qed.

(** X9: a query that finds a record-set with no live record (every
    record marked DELETE, or no record at all) is still answered NOERROR
    with the AA flag: the answer section then holds a single entry, which
    is None. *)
Theorem record_query_all_deleted (request : Request) (q : dns.Question)
    (recordset : RecordSet) (criterion : Criterion) (domain : Domain)
    (tr : list Event) :
  opcode request = dns.opcode_QUERY ->
  question request = [q] ->
  dns.rdclass q = dns.rdataclass_IN ->
  dns.rdtype q ≠ dns.rdatatype_AXFR -> dns.rdtype q ≠ dns.rdatatype_IXFR ->
  find_recordset self (context (environ request)) (recordset_criterion self q)
    = Return recordset ->
  _domain_criterion_from_request self request
    (Some (<["id" := VStr (rs_domain_id recordset)]> ∅)) = Return criterion ->
  find_domain self (context (environ request)) criterion = Return domain ->
  Forall (λ record, action record = "DELETE") (records recordset) ->
  exists response tr',
    __call__ self request tr = (Return response, tr')
    /\ dns.rcode response = dns.rcode_NOERROR
    /\ dns.has_AA response = true
    /\ dns.resp_answer response = [None].
Proof.
  intros Hop Hq Hclass Hna Hni Hrs Hcrit Hdom Hall.
  rewrite (call_query_record self request q) by auto using not_xfr.
  rewrite (handle_record_query_found self request q [] recordset criterion domain)
    by done.
  do 2 eexists. split; [done|]. split; [|split].
  - rewrite rcode_or_AA, rcode_set_answer. by apply rcode_set_rcode.
  - apply has_AA_or_AA.
  - simpl. by rewrite convert_to_rrset_all_deleted.
Qed.

(** X10: with signed queries enforced, an unsigned QUERY is never
    answered and never causes a zone lookup: whatever the storage holds,
    a response that is returned is REFUSED, without the AA flag and with
    an empty answer.  (A record query still looks the record-set up
    first; a transfer request makes no storage call at all.) *)
Theorem unsigned_query_under_enforcement (request : Request) (tr : list Event) :
  opcode request = dns.opcode_QUERY ->
  query_enforce_tsig self = true ->
  tsigkey (environ request) = None ->
  zone_lookups (snd (__call__ self request tr)) = zone_lookups tr
  /\ (forall response, fst (__call__ self request tr) = Return response ->
        dns.rcode response = dns.rcode_REFUSED
        /\ dns.has_AA response = false
        /\ dns.resp_answer response = [])
  /\ (forall q, question request = [q] -> dns.rdclass q = dns.rdataclass_IN ->
        is_xfr (dns.rdtype q) = true ->
        storage_calls (snd (__call__ self request tr)) = storage_calls tr).
Proof.
  intros Hop Henf Hkey.
  assert (Hrefused : forall rc, rc = dns.rcode_REFUSED ->
            dns.rcode (dns.set_rcode (make_response request) rc) = dns.rcode_REFUSED
            /\ dns.has_AA (dns.set_rcode (make_response request) rc) = false
            /\ dns.resp_answer (dns.set_rcode (make_response request) rc) = []).
  { intros rc ->. split; [by apply rcode_set_rcode|]. split; [apply has_AA_error|done]. }
  destruct (decide (length (question request) = 1%nat)) as [Hlen|Hlen].
  2:{ rewrite call_query_bad_count by done. simpl.
      split; [done|]. split; [|intros q Hq; by rewrite Hq in Hlen].
      intros response [= <-]. by apply Hrefused. }
  destruct (question request) as [|q [|q' qs]] eqn:Hq; try discriminate Hlen.
  destruct (decide (dns.rdclass q = dns.rdataclass_IN)) as [Hclass|Hclass].
  2:{ rewrite (call_query_bad_class self request q) by done. simpl.
      split; [done|]. split; [|intros q0 [= <-]; done].
      intros response [= <-]. by apply Hrefused. }
  destruct (is_xfr (dns.rdtype q)) eqn:Hxfr.
  - rewrite (call_query_xfr self request q) by done.
    unfold _handle_axfr. unfold_monad. rewrite Hq; simpl.
    rewrite domain_criterion_no_key, Henf by done. simpl.
    rewrite zone_lookups_app, storage_calls_app; simpl. rewrite !app_nil_r.
    split; [done|]. split; [|done].
    intros response [= <-]. by apply Hrefused.
  - rewrite (call_query_record self request q) by done.
    split; [|split; [|intros q0 [= <-] _ Hx; congruence]].
    + unfold _handle_record_query. unfold_monad. rewrite Hq; simpl.
      destruct (find_recordset self _ _) as [recordset|e]; simpl.
      * rewrite domain_criterion_no_key, Henf by done. simpl.
        rewrite !zone_lookups_app; simpl. by rewrite !app_nil_r.
      * destruct e; simpl; rewrite ?zone_lookups_app; simpl;
          by rewrite ?app_nil_r.
    + unfold _handle_record_query. unfold_monad. rewrite Hq; simpl.
      destruct (find_recordset self _ _) as [recordset|e]; simpl.
      * rewrite domain_criterion_no_key, Henf by done. simpl.
        intros response [= <-]. by apply Hrefused.
      * destruct e; simpl; intros response Hr; try discriminate Hr;
          injection Hr as <-; by apply Hrefused.
Qed.

(** X11: a transfer request for a zone the storage does not find, or
    may not show (Forbidden), is answered REFUSED without the AA flag and
    with an empty answer; after the zone lookup no record-set is listed. *)
Theorem axfr_zone_not_found (request : Request) (q : dns.Question)
    (criterion : Criterion) (e : exn) (tr : list Event) :
  opcode request = dns.opcode_QUERY ->
  question request = [q] ->
  dns.rdclass q = dns.rdataclass_IN ->
  dns.rdtype q = dns.rdatatype_AXFR \/ dns.rdtype q = dns.rdatatype_IXFR ->
  _domain_criterion_from_request self request
    (Some (<["name" := VStr (dns.name q)]> ∅)) = Return criterion ->
  find_domain self (context (environ request)) criterion = Raise e ->
  e = DomainNotFound \/ e = Forbidden ->
  exists response,
    __call__ self request tr
      = (Return response,
         tr ++ [EFindDomain (context (environ request)) criterion; ELog WARN])
    /\ dns.rcode response = dns.rcode_REFUSED
    /\ dns.has_AA response = false
    /\ dns.resp_answer response = [].
Proof.
  intros Hop Hq Hclass Htype Hcrit Hdom He.
  rewrite (call_query_xfr self request q) by (try apply is_xfr_spec; done).
  unfold _handle_axfr. unfold_monad. rewrite Hq; simpl. rewrite Hcrit, Hdom.
  destruct He as [-> | ->]; simpl; rewrite <- app_assoc; simpl;
    (eexists; split; [done|]; split; [by apply rcode_set_rcode|];
     split; [apply has_AA_error|done]).
Qed.

End QueryEdges.

(** ** More on the projection and on the answer of a transfer *)

Section ProjectionEdges.

Import RequestHandler.

Lemma live_data_nil (recordset : RecordSet) :
  live_data recordset = [] <->
  Forall (λ record, action record = "DELETE") (records recordset).
Proof.
  unfold live_data. induction (records recordset) as [|r l IH]; [done|].
  rewrite filter_cons. destruct (decide (action r ≠ "DELETE")) as [Hne|Heq].
  - split; [done|]. intros Hall. by inversion Hall.
  - apply dec_stable in Heq. rewrite IH. split.
    + intros Hall. by constructor.
    + intros Hall. by inversion Hall.
Qed.

Lemma live_data_not_nil (recordset : RecordSet) :
  live_data recordset ≠ [] <->
  Exists (λ record, action record ≠ "DELETE") (records recordset).
Proof.
  unfold live_data. induction (records recordset) as [|r l IH].
  - split; [done|]. intros Hex. inversion Hex.
  - rewrite filter_cons, Exists_cons.
    destruct (decide (action r ≠ "DELETE")) as [Hne|Heq]; [by split; auto|].
    rewrite IH. tauto.
Qed.

Lemma convert_to_rrset_none (domain : Domain) (recordset : RecordSet) :
  _convert_to_rrset domain recordset = None <->
  Forall (λ record, action record = "DELETE") (records recordset).
Proof.
  rewrite <- live_data_nil, convert_to_rrset_eq.
  by destruct (live_data recordset).
Qed.

Lemma convert_to_rrset_live_iff (domain : Domain) (recordset : RecordSet) :
  is_Some (_convert_to_rrset domain recordset) <->
  Exists (λ record, action record ≠ "DELETE") (records recordset).
Proof.
  rewrite <- live_data_not_nil, convert_to_rrset_eq.
  destruct (live_data recordset); [|done].
  split; [by intros [? ?]|done].
Qed.

(** X12: a record-set is projected to a resource-record-set exactly when
    one of its records is not marked DELETE; an empty record-set, like one
    that is all deletions, gives None, and the data emitted is never longer
    than the record list. *)
Theorem convert_to_rrset_emits_iff_live (domain : Domain) (recordset : RecordSet) :
  (is_Some (_convert_to_rrset domain recordset) <->
     Exists (λ record, action record ≠ "DELETE") (records recordset))
  /\ (records recordset = [] -> _convert_to_rrset domain recordset = None)
  /\ (forall r, _convert_to_rrset domain recordset = Some r ->
        (0 < length (dns.rr_rdata r) <= length (records recordset))%nat).
Proof.
  split; [|split].
  - apply convert_to_rrset_live_iff.
  - intros Hnil. apply convert_to_rrset_none. rewrite Hnil. constructor.
  - intros r. rewrite convert_to_rrset_eq. unfold live_data.
    destruct (data <$> _) as [|x l] eqn:Hdata; [done|]. intros [= <-].
    assert (Hlen : (length (x :: l) <= length (records recordset))%nat).
    { rewrite <- Hdata, length_fmap. apply length_filter. }
    simpl in *. lia.
Qed.

(** X13: the TTL of what is emitted, as the code selects it.  A
    record-set with a TTL of its own that is not 0 carries that TTL and is
    projected the same against every zone; a record-set whose TTL is None
    or 0 carries the TTL of the zone it is projected against. *)
Theorem convert_to_rrset_ttl_selection (recordset : RecordSet) :
  (forall t domain1 domain2, rs_ttl recordset = Some t -> t ≠ 0 ->
     _convert_to_rrset domain1 recordset = _convert_to_rrset domain2 recordset
     /\ forall r, _convert_to_rrset domain1 recordset = Some r -> dns.rr_ttl r = t)
  /\ (forall domain r, rs_ttl recordset = None \/ rs_ttl recordset = Some 0 ->
        _convert_to_rrset domain recordset = Some r -> dns.rr_ttl r = d_ttl domain).
Proof.
  split.
  - intros t domain1 domain2 Httl Ht.
    assert (Heff : forall domain, effective_ttl domain recordset = t).
    { intros domain. unfold effective_ttl. rewrite Httl.
      by destruct (Z.eqb_spec t 0). }
    split.
    + rewrite !convert_to_rrset_eq. destruct (live_data recordset); [done|].
      by rewrite !Heff.
    + intros r Hr. by rewrite (emitted_ttl_is_effective_ttl domain1 recordset r Hr).
  - intros domain r Httl Hr.
    rewrite (emitted_ttl_is_effective_ttl domain recordset r Hr).
    unfold effective_ttl. by destruct Httl as [-> | ->].
Qed.

End ProjectionEdges.

Section AxfrAnswer.

Import RequestHandler.

Variable self : Collaborators.

Lemma length_omap_convert (domain : Domain) (l : list RecordSet) :
  length (omap (_convert_to_rrset domain) l)
  = length (filter (λ rs, Exists (λ record, action record ≠ "DELETE") (records rs)) l).
Proof.
  induction l as [|rs l IH]; [done|].
  rewrite filter_cons.
  change (omap (_convert_to_rrset domain) (rs :: l))
    with (match _convert_to_rrset domain rs with
          | Some y => y :: omap (_convert_to_rrset domain) l
          | None => omap (_convert_to_rrset domain) l
          end).
  destruct (convert_to_rrset_live_iff domain rs) as [Hsome Hex].
  destruct (_convert_to_rrset domain rs) as [r|] eqn:Hr.
  - rewrite decide_True by (apply Hsome; eauto). simpl. by rewrite IH.
  - rewrite decide_False; [done|]. intros H. by destruct (Hex H).
Qed.

(** X14: the answer of a transfer, for any number of SOA record-sets.
    Its length is twice the number of SOA record-sets plus the number of
    other record-sets that have a live record; its first and last entries
    are the same SOA projections; and it holds a None entry exactly when
    some SOA record-set has no live record: SOA projections are appended
    unfiltered, the others never give None. *)
Theorem axfr_answer_shape (request : Request) (q : dns.Question)
    (criterion : Criterion) (domain : Domain) (soas others : list RecordSet)
    (tr : list Event) :
  opcode request = dns.opcode_QUERY ->
  question request = [q] ->
  dns.rdclass q = dns.rdataclass_IN ->
  dns.rdtype q = dns.rdatatype_AXFR \/ dns.rdtype q = dns.rdatatype_IXFR ->
  _domain_criterion_from_request self request
    (Some (<["name" := VStr (dns.name q)]> ∅)) = Return criterion ->
  find_domain self (context (environ request)) criterion = Return domain ->
  find_recordsets self (context (environ request))
    (<["domain_id" := VStr (d_id domain)]> (<["type" := VStr "SOA"]> ∅)) = Return soas ->
  find_recordsets self (context (environ request))
    (<["domain_id" := VStr (d_id domain)]> (<["type" := VStr "!SOA"]> ∅))
    = Return others ->
  exists response tr',
    __call__ self request tr = (Return response, tr')
    /\ length (dns.resp_answer response)
       = (2 * length soas
          + length (filter (λ rs, Exists (λ record, action record ≠ "DELETE")
                                    (records rs)) others))%nat
    /\ take (length soas) (dns.resp_answer response)
       = drop (length (dns.resp_answer response) - length soas)
           (dns.resp_answer response)
    /\ (None ∈ dns.resp_answer response <->
          Exists (λ rs, Forall (λ record, action record = "DELETE") (records rs)) soas).
Proof.
  intros Hop Hq Hclass Htype Hcrit Hdom Hsoa Hothers.
  rewrite (call_query_xfr self request q) by (try apply is_xfr_spec; done).
  rewrite (handle_axfr_found self request q [] criterion domain soas others) by done.
  do 2 eexists. split; [done|].
  rewrite answer_or_flags. cbn [dns.set_answer dns.resp_answer]. unfold axfr_answer.
  set (A := _convert_to_rrset domain <$> soas).
  set (B := Some <$> omap (_convert_to_rrset domain) others).
  assert (HA : length A = length soas) by apply length_fmap.
  assert (HB : length B = length (filter (λ rs,
                  Exists (λ record, action record ≠ "DELETE") (records rs)) others)).
  { unfold B. by rewrite length_fmap, length_omap_convert. }
  split; [|split].
  - rewrite !length_app, HA, HB. lia.
  - rewrite <- HA. rewrite take_app_length.
    rewrite !length_app.
    replace (length A + (length B + length A) - length A)%nat
      with (length A + length B)%nat by lia.
    rewrite app_assoc, <- length_app. by rewrite drop_app_length.
  - rewrite !elem_of_app. unfold A, B. rewrite !list_elem_of_fmap, Exists_exists.
    split.
    + intros [(rs & Hnone & Hin)|[(r & Hr & _)|(rs & Hnone & Hin)]]; try done.
      * exists rs. split; [done|]. by apply (convert_to_rrset_none domain).
      * exists rs. split; [done|]. by apply (convert_to_rrset_none domain).
    + intros (rs & Hin & Hall). left. exists rs. split; [|done].
      symmetry. by apply convert_to_rrset_none.
Qed.

End AxfrAnswer.

(** ** What holds of every run of the handler *)

Section Invariants.

Import RequestHandler.

Variable self : Collaborators.

Lemma domain_criterion_raise (request : Request) (criterion : option Criterion) (e : exn) :
  _domain_criterion_from_request self request criterion = Raise e ->
  e = Forbidden \/ (e = NotImplementedError /\ ~ supported_scope request).
Proof.
  unfold _domain_criterion_from_request, supported_scope.
  destruct (tsigkey (environ request)) as [key|].
  - destruct (String.eqb_spec (scope key) "POOL"); [done|].
    destruct (String.eqb_spec (scope key) "ZONE"); [done|].
    intros [= <-]. right. split; [done|]. tauto.
  - destruct (query_enforce_tsig self); [|done]. intros [= <-]. by left.
Qed.

(** The three shapes of a response the handler returns. *)
Lemma call_response_shape (request : Request) (tr tr' : list Event)
    (response : dns.Response) :
  __call__ self request tr = (Return response, tr') ->
  (exists rc, (rc = dns.rcode_FORMERR \/ rc = dns.rcode_REFUSED \/ rc = dns.rcode_NOTAUTH)
              /\ response = dns.set_rcode (make_response request) rc)
  \/ (exists answer,
        opcode request = dns.opcode_QUERY
        /\ response = dns.or_flags
                        (dns.set_answer
                           (dns.set_rcode (make_response request) dns.rcode_NOERROR)
                           answer)
                        dns.flags_AA)
  \/ (opcode request = dns.opcode_NOTIFY
      /\ response = dns.or_flags (make_response request) dns.flags_AA).
Proof.
  unfold __call__, _handle_notify, _handle_axfr, _handle_record_query,
    _handle_query_error.
  unfold_monad. intros H.
  repeat case_match; simplify_eq; eauto 10.
  all: try (rewrite Z.eqb_eq in *; eauto 10).
Qed.

(** X15: for every response the handler returns, the rcode is NOERROR,
    FORMERR, REFUSED or NOTAUTH, the AA flag is set exactly when the rcode
    is NOERROR, and a response with another rcode has an empty answer. *)
Theorem response_rcode_and_AA (request : Request) (tr tr' : list Event)
    (response : dns.Response) :
  __call__ self request tr = (Return response, tr') ->
  handler_rcode (dns.rcode response)
  /\ dns.has_AA response = bool_decide (dns.rcode response = dns.rcode_NOERROR)
  /\ (dns.rcode response ≠ dns.rcode_NOERROR -> dns.resp_answer response = []).
Proof.
  intros Hcall.
  destruct (call_response_shape request tr tr' response Hcall)
    as [(rc & Hrc & ->)|[(answer & _ & ->)|[_ ->]]].
  - assert (Hrcode : dns.rcode (dns.set_rcode (make_response request) rc) = rc).
    { apply rcode_set_rcode. destruct Hrc as [->|[->| ->]]; done. }
    rewrite Hrcode, has_AA_error.
    split; [unfold handler_rcode; tauto|]. split; [|done].
    destruct Hrc as [->|[->| ->]]; done.
  - rewrite rcode_or_AA, rcode_set_answer, rcode_set_rcode, has_AA_or_AA by done.
    split; [by left|]. split; done.
  - rewrite rcode_or_AA, rcode_make_response, has_AA_or_AA.
    split; [by left|]. split; done.
Qed.

Lemma QR_make_response (request : Request) :
  Z.testbit (dns.resp_flags (make_response request)) 15 = true.
Proof.
  unfold make_response, dns.opcode_to_flags; cbn [dns.resp_flags].
  rewrite Z.lor_spec, Z.land_spec, Z.lor_spec.
  change (Z.testbit dns.flags_QR 15) with true.
  change (Z.testbit 0x87FF 15) with true. done.
Qed.

Lemma QR_set_rcode (m : dns.Response) (rc : Z) :
  Z.testbit (dns.resp_flags (dns.set_rcode m rc)) 15 = Z.testbit (dns.resp_flags m) 15.
Proof.
  unfold dns.set_rcode; cbn [dns.resp_flags].
  rewrite Z.lor_spec, !Z.land_spec.
  change (Z.testbit 0xFFF0 15) with true. change (Z.testbit 0xF 15) with false.
  by rewrite andb_true_r, andb_false_r, orb_false_r.
Qed.

Lemma opcode_make_response (request : Request) :
  dns.opcode_from_flags (dns.resp_flags (make_response request)) = opcode request.
Proof.
  unfold opcode, dns.opcode_from_flags. f_equal.
  unfold make_response, opcode, dns.opcode_to_flags, dns.opcode_from_flags;
    cbn [dns.resp_flags].
  rewrite Z.land_lor_distr_l.
  rewrite (land_land_const _ 0x87FF 0x7800) by reflexivity.
  rewrite Z.lor_0_l, <- Z.land_assoc.
  change (Z.land 0x7800 0x7800) with 0x7800.
  rewrite <- Z.ldiff_ones_r by done.
  rewrite Z.ldiff_land, <- !Z.land_assoc. f_equal.
Qed.

Lemma opcode_set_rcode (m : dns.Response) (rc : Z) :
  dns.opcode_from_flags (dns.resp_flags (dns.set_rcode m rc))
  = dns.opcode_from_flags (dns.resp_flags m).
Proof.
  unfold dns.opcode_from_flags, dns.set_rcode; cbn [dns.resp_flags]. f_equal.
  rewrite Z.land_lor_distr_l.
  rewrite (land_land_const _ 0xF 0x7800) by reflexivity.
  rewrite Z.lor_0_r, <- Z.land_assoc. done.
Qed.

Lemma opcode_or_AA (m : dns.Response) :
  dns.opcode_from_flags (dns.resp_flags (dns.or_flags m dns.flags_AA))
  = dns.opcode_from_flags (dns.resp_flags m).
Proof.
  unfold dns.opcode_from_flags, dns.or_flags; cbn [dns.resp_flags]. f_equal.
  rewrite Z.land_lor_distr_l.
  change (Z.land dns.flags_AA 0x7800) with 0. apply Z.lor_0_r.
Qed.

(** X16: every response the handler returns mirrors the request: it has
    the id, the opcode and the question section of the request, and the QR
    bit set. *)
Theorem response_mirrors_request (request : Request) (tr tr' : list Event)
    (response : dns.Response) :
  __call__ self request tr = (Return response, tr') ->
  dns.resp_id response = req_id request
  /\ dns.resp_question response = question request
  /\ dns.opcode_from_flags (dns.resp_flags response) = opcode request
  /\ Z.testbit (dns.resp_flags response) 15 = true.
Proof.
  intros Hcall.
  destruct (call_response_shape request tr tr' response Hcall)
    as [(rc & Hrc & ->)|[(answer & _ & ->)|[_ ->]]].
  - split; [done|]. split; [done|].
    by rewrite opcode_set_rcode, opcode_make_response, QR_set_rcode, QR_make_response.
  - split; [done|]. split; [done|]. rewrite opcode_or_AA.
    cbn [dns.or_flags dns.set_answer dns.resp_flags].
    rewrite Z.lor_spec.
    fold (dns.resp_flags (dns.set_rcode (make_response request) dns.rcode_NOERROR)).
    by rewrite opcode_set_rcode, opcode_make_response, QR_set_rcode, QR_make_response.
  - split; [done|]. split; [done|]. rewrite opcode_or_AA, opcode_make_response.
    cbn [dns.or_flags dns.resp_flags]. by rewrite Z.lor_spec, QR_make_response.
Qed.

(** X18: handling a QUERY, whatever the storage does and however the
    run ends, never schedules a re-sync task, never makes a remote query,
    and makes at most three storage calls. *)
Theorem query_calls_made (request : Request) (tr : list Event) :
  opcode request = dns.opcode_QUERY ->
  resync_tasks (snd (__call__ self request tr)) = resync_tasks tr
  /\ remote_queries (snd (__call__ self request tr)) = remote_queries tr
  /\ (length (storage_calls (snd (__call__ self request tr)))
      <= length (storage_calls tr) + 3)%nat.
Proof.
  intros Hop.
  unfold __call__, _handle_axfr, _handle_record_query, _handle_query_error.
  unfold_monad. rewrite Hop.
  destruct (question request) as [|q [|q' qs]] eqn:Hq; simpl.
  all: repeat (case_match; simplify_eq/=).
  all: rewrite ?resync_tasks_app, ?remote_queries_app, ?storage_calls_app, ?length_app;
    simpl; rewrite ?app_nil_r; (split; [done|]; split; [done|]; lia).
Qed.

(** X19: handling a NOTIFY, however the run ends, makes at most one
    storage call, which is a zone lookup, at most one remote query, and
    schedules at most one re-sync task. *)
Theorem notify_calls_made (request : Request) (tr : list Event) :
  opcode request = dns.opcode_NOTIFY ->
  (length (storage_calls (snd (__call__ self request tr)))
   <= length (storage_calls tr) + 1)%nat
  /\ length (storage_calls (snd (__call__ self request tr)))
     = (length (storage_calls tr)
        + (length (zone_lookups (snd (__call__ self request tr)))
           - length (zone_lookups tr)))%nat
  /\ (length (remote_queries (snd (__call__ self request tr)))
      <= length (remote_queries tr) + 1)%nat
  /\ (length (resync_tasks (snd (__call__ self request tr)))
      <= length (resync_tasks tr) + 1)%nat.
Proof.
  intros Hop. rewrite call_notify by done.
  unfold _handle_notify. unfold_monad.
  destruct (question request) as [|q [|q' qs]] eqn:Hq; simpl.
  all: repeat (case_match; simplify_eq/=).
  all: rewrite ?resync_tasks_app, ?remote_queries_app, ?storage_calls_app,
      ?zone_lookups_app, ?length_app;
    simpl; (split; [lia|]; split; [lia|]; split; lia).
Qed.

(** X20: a request that carries a TSIG key is handled the same under
    every value of the two configuration options: the enforcement of
    signed queries and the default pool only matter to unsigned
    requests. *)
Theorem signed_request_ignores_conf (request : Request) (key : TsigKey)
    (enforce : bool) (pool : string) (tr : list Event) :
  tsigkey (environ request) = Some key ->
  __call__ (with_conf self enforce pool) request tr = __call__ self request tr.
Proof.
  unfold __call__, _handle_notify, _handle_axfr, _handle_record_query,
    _domain_criterion_from_request.
  destruct (tsigkey (environ request)) as [k|]; [intros _|discriminate].
  reflexivity.
Qed.

(** X21: an IXFR request is answered as the AXFR request for the same
    name is: the same calls are made, and the outcome is the same
    exception or a response with the same id, flags and answer. *)
Theorem ixfr_answered_as_axfr (request : Request) (q : dns.Question) (tr : list Event) :
  opcode request = dns.opcode_QUERY ->
  question request = [q] ->
  dns.rdclass q = dns.rdataclass_IN ->
  outcome_payload (fst (__call__ self (with_rdtype request dns.rdatatype_IXFR) tr))
    = outcome_payload (fst (__call__ self (with_rdtype request dns.rdatatype_AXFR) tr))
  /\ snd (__call__ self (with_rdtype request dns.rdatatype_IXFR) tr)
     = snd (__call__ self (with_rdtype request dns.rdatatype_AXFR) tr).
Proof.
  intros Hop Hq Hclass.
  rewrite (call_query_xfr self (with_rdtype request dns.rdatatype_IXFR)
             {| dns.name := dns.name q; dns.rdclass := dns.rdclass q;
                dns.rdtype := dns.rdatatype_IXFR |});
    [|done|by cbn; rewrite Hq|done|done].
  rewrite (call_query_xfr self (with_rdtype request dns.rdatatype_AXFR)
             {| dns.name := dns.name q; dns.rdclass := dns.rdclass q;
                dns.rdtype := dns.rdatatype_AXFR |});
    [|done|by cbn; rewrite Hq|done|done].
  unfold _handle_axfr, _handle_query_error, _domain_criterion_from_request.
  unfold_monad. cbn [with_rdtype question environ]. rewrite Hq. simpl.
  repeat case_match; simplify_eq; done.
Qed.

End Invariants.

(** ** The floating IP view *)

Section FloatingIP.

Import FloatingIPView.

Variable ApiRequest : Type.
Variable links : ApiRequest -> gmap string jval -> list jval -> jval.

Lemma append_colon_inj (r1 r2 i1 i2 : string) :
  has_colon r1 = false -> has_colon r2 = false ->
  r1 +:+ ":" +:+ i1 = r2 +:+ ":" +:+ i2 ->
  r1 = r2 /\ i1 = i2.
Proof.
  revert r2. induction r1 as [|c r1 IH]; intros [|c2 r2]; cbn; intros H1 H2 Heq.
  - by simplify_eq/=.
  - injection Heq as <- _. by vm_compute in H2.
  - injection Heq as -> _. by vm_compute in H1.
  - injection Heq as -> Heq.
    apply orb_false_iff in H1 as [_ H1]. apply orb_false_iff in H2 as [_ H2].
    destruct (IH r2 H1 H2 Heq) as [-> ->]. done.
Qed.

Lemma show_basic_strings (ctx : Context) (request : ApiRequest)
    (item : gmap string jval) (region id_ : string) :
  item !! "region" = Some (JStr region) ->
  item !! "id" = Some (JStr id_) ->
  show_basic ApiRequest links ctx request item
  = Return (<["links" := links request
                           (delete "region" (<["id" := JStr (region +:+ ":" +:+ id_)]> item))
                           [JStr (region +:+ ":" +:+ id_)]]>
              (delete "region" (<["id" := JStr (region +:+ ":" +:+ id_)]> item))).
Proof.
  intros Hregion Hid. unfold show_basic, dict_getitem.
  rewrite Hregion, Hid. simpl.
  rewrite lookup_delete_ne by done. by rewrite lookup_insert_eq.
Qed.

(** X22: for a floating IP whose region and id are strings, the view
    replaces the id by region:id, removes the region, adds the links built
    for the item as it then is, with the new id as parent, and leaves every
    other entry as it was. *)
Theorem show_basic_result (ctx : Context) (request : ApiRequest)
    (item : gmap string jval) (region id_ : string) :
  item !! "region" = Some (JStr region) ->
  item !! "id" = Some (JStr id_) ->
  exists out,
    show_basic ApiRequest links ctx request item = Return out
    /\ out !! "id" = Some (JStr (region +:+ ":" +:+ id_))
    /\ out !! "region" = None
    /\ out !! "links"
       = Some (links request
                 (delete "region" (<["id" := JStr (region +:+ ":" +:+ id_)]> item))
                 [JStr (region +:+ ":" +:+ id_)])
    /\ forall k, k ≠ "id" -> k ≠ "region" -> k ≠ "links" -> out !! k = item !! k.
Proof.
  intros Hregion Hid. rewrite (show_basic_strings ctx request item region id_) by done.
  eexists. split; [done|]. split; [|split; [|split]].
  - rewrite lookup_insert_ne, lookup_delete_ne by done. apply lookup_insert_eq.
  - rewrite lookup_insert_ne by done. apply lookup_delete_eq.
  - apply lookup_insert_eq.
  - intros k Hid' Hregion' Hlinks.
    by rewrite lookup_insert_ne, lookup_delete_ne, lookup_insert_ne.
Qed.

(** X23: the view fails with KeyError when the dictionary lacks the
    region or the id, and with TypeError when both are there but one of
    them is not a string. *)
Theorem show_basic_errors (ctx : Context) (request : ApiRequest)
    (item : gmap string jval) :
  (item !! "region" = None \/ item !! "id" = None ->
     show_basic ApiRequest links ctx request item = Raise (Other "KeyError"))
  /\ (forall region id_,
        item !! "region" = Some region -> item !! "id" = Some id_ ->
        (forall s, region ≠ JStr s) \/ (forall s, id_ ≠ JStr s) ->
        show_basic ApiRequest links ctx request item = Raise (Other "TypeError")).
Proof.
  split.
  - intros [Hnone|Hnone]; unfold show_basic, dict_getitem; rewrite Hnone; [done|].
    by destruct (item !! "region").
  - intros region id_ Hregion Hid Hbad. unfold show_basic, dict_getitem.
    rewrite Hregion, Hid.
    destruct Hbad as [Hbad|Hbad].
    + destruct region; try done. by destruct (Hbad s).
    + destruct region, id_; try done. by destruct (Hbad s0).
Qed.

(** X24: the ids the view builds tell floating IPs apart: when the
    region names hold no colon, two items shown with the same id have the
    same region and the same id. *)
Theorem show_basic_id_injective (ctx : Context) (request : ApiRequest)
    (item1 item2 out1 out2 : gmap string jval) (region1 region2 id1 id2 : string) :
  item1 !! "region" = Some (JStr region1) -> item1 !! "id" = Some (JStr id1) ->
  item2 !! "region" = Some (JStr region2) -> item2 !! "id" = Some (JStr id2) ->
  has_colon region1 = false -> has_colon region2 = false ->
  show_basic ApiRequest links ctx request item1 = Return out1 ->
  show_basic ApiRequest links ctx request item2 = Return out2 ->
  out1 !! "id" = out2 !! "id" ->
  region1 = region2 /\ id1 = id2.
Proof.
  intros Hr1 Hi1 Hr2 Hi2 Hc1 Hc2.
  rewrite (show_basic_strings ctx request item1 region1 id1) by done.
  rewrite (show_basic_strings ctx request item2 region2 id2) by done.
  intros [= <-] [= <-].
  rewrite !lookup_insert_ne, !lookup_delete_ne, !lookup_insert_eq by done.
  intros [= Heq]. by apply append_colon_inj.
Qed.

End FloatingIP.

(** ** The further theorems at the deployments of the examples *)

Section MoreExamples.

Import RequestHandler.

(** A NOTIFY with an empty question section. *)
Lemma notify_malformed_question_witness :
  exists response,
    __call__ Scripted.plain (Fixture.request 4 [] "10.0.0.1" None) [] = (Return response, [])
    /\ dns.rcode response = dns.rcode_FORMERR.
Proof.
  destruct (notify_malformed_question Scripted.plain (Fixture.request 4 [] "10.0.0.1" None) [])
    as (response & Hcall & Hrcode & _); [reflexivity|discriminate|].
  exists response. split; [exact Hcall|exact Hrcode].
Defined.

(** A NOTIFY for a name no zone has. *)
Lemma notify_unknown_zone_witness :
  exists response tr',
    __call__ Scripted.plain (Fixture.request 4 [Fixture.q "nowhere.example." 6] "10.0.0.1" None) []
      = (Return response, tr')
    /\ dns.rcode response = dns.rcode_NOTAUTH.
Proof.
  destruct (notify_unknown_zone Scripted.plain
              (Fixture.request 4 [Fixture.q "nowhere.example." 6] "10.0.0.1" None)
              (Fixture.q "nowhere.example." 6) [])
    as (response & Hcall & Hrcode & _); try (vm_compute; reflexivity).
  eexists response, _. split; [exact Hcall|exact Hrcode].
Defined.

(** A NOTIFY at a storage that answers Forbidden. *)
Lemma notify_zone_lookup_failure_propagates_witness :
  fst (__call__ (Scripted.collaborators (Raise Forbidden) (Raise RecordSetNotFound)
                   (Return []) (Return []) false) Scripted.notify [])
  = Raise Forbidden.
Proof.
  rewrite (notify_zone_lookup_failure_propagates
             (Scripted.collaborators (Raise Forbidden) (Raise RecordSetNotFound)
                (Return []) (Return []) false)
             Scripted.notify (Fixture.q "example.com." 6) Forbidden []);
    [reflexivity|reflexivity|reflexivity|reflexivity|discriminate].
Defined.

(** A NOTIFY from the master 10.0.0.1, which then does not answer. *)
Lemma notify_queries_sender_only_witness :
  remote_queries
    (snd (__call__ (Fixture.collaborators false (Raise (Other "Timeout"))) Scripted.notify []))
  = [(["10.0.0.1"], "example.com.")].
Proof.
  rewrite (notify_queries_sender_only
             (Fixture.collaborators false (Raise (Other "Timeout")))
             Scripted.notify (Fixture.q "example.com." 6) Fixture.zone "10.0.0.1" []);
    try (vm_compute; reflexivity).
Defined.

(** The master answers the SOA query with no record. *)
Lemma notify_remote_failure_schedules_nothing_witness :
  exists tr',
    __call__ (Fixture.collaborators false (Return [])) Scripted.notify [] = (Raise IndexError, tr')
    /\ resync_tasks tr' = [].
Proof.
  apply (notify_remote_failure_schedules_nothing
           (Fixture.collaborators false (Return []))
           Scripted.notify (Fixture.q "example.com." 6) Fixture.zone "10.0.0.1" IndexError []);
    try (vm_compute; reflexivity).
  right. split; reflexivity.
Defined.

(** The NOTIFY signed with a key of an unsupported scope, with signed
    queries enforced. *)
Lemma notify_ignores_tsig_witness :
  __call__ (with_conf Scripted.plain true "pool-9")
    (with_tsigkey Scripted.notify (Some {| scope := "TENANT"; resource_id := "tenant-1" |})) []
  = __call__ Scripted.plain Scripted.notify [].
Proof.
  apply (notify_ignores_tsig Scripted.plain Scripted.notify
           (Some {| scope := "TENANT"; resource_id := "tenant-1" |}) true "pool-9" []).
  reflexivity.
Defined.

(** A query for a name that has no A record-set. *)
Lemma record_query_not_found_witness :
  exists response tr',
    __call__ Scripted.plain (Fixture.request 0 [Fixture.q "nope.example.com." 1] "198.51.100.7" None) []
      = (Return response, tr')
    /\ dns.rcode response = dns.rcode_REFUSED.
Proof.
  destruct (record_query_not_found Scripted.plain
              (Fixture.request 0 [Fixture.q "nope.example.com." 1] "198.51.100.7" None)
              (Fixture.q "nope.example.com." 1) RecordSetNotFound [])
    as (response & Hcall & Hrcode & _);
    try (vm_compute; reflexivity); try discriminate; [by left|].
  eexists response, _. split; [exact Hcall|exact Hrcode].
Defined.

(** A query at a storage whose record-set lookup breaks down. *)
Lemma record_query_lookup_failure_propagates_witness :
  fst (__call__ (Scripted.collaborators (Return Fixture.zone) (Raise (Other "DBError"))
                   (Return []) (Return []) false) Scripted.www [])
  = Raise (Other "DBError").
Proof.
  rewrite (record_query_lookup_failure_propagates
             (Scripted.collaborators (Return Fixture.zone) (Raise (Other "DBError"))
                (Return []) (Return []) false)
             Scripted.www (Fixture.q "www.example.com." 1) (Other "DBError") []);
    try reflexivity; discriminate.
Defined.

(** A query that finds the record-set whose only record is marked DELETE. *)
Lemma record_query_all_deleted_witness :
  exists response tr',
    __call__ (Scripted.collaborators (Return Fixture.zone) (Return Fixture.gone_rs)
                (Return []) (Return []) false) Scripted.www []
      = (Return response, tr')
    /\ dns.rcode response = dns.rcode_NOERROR
    /\ dns.resp_answer response = [None].
Proof.
  destruct (record_query_all_deleted
              (Scripted.collaborators (Return Fixture.zone) (Return Fixture.gone_rs)
                 (Return []) (Return []) false)
              Scripted.www (Fixture.q "www.example.com." 1) Fixture.gone_rs
              (<["pool_id" := VStr "pool-1"]> (<["id" := VStr "zone-1"]> ∅))
              Fixture.zone [])
    as (response & tr' & Hcall & Hrcode & _ & Hanswer);
    try (vm_compute; reflexivity); try discriminate.
  { repeat constructor. }
  exists response, tr'. split; [exact Hcall|]. split; [exact Hrcode|exact Hanswer].
Defined.

(** The unsigned query for www.example.com. with signed queries enforced. *)
Lemma unsigned_query_under_enforcement_witness :
  zone_lookups (snd (__call__ (Fixture.collaborators true (Return [])) Scripted.www [])) = []
  /\ exists response,
       fst (__call__ (Fixture.collaborators true (Return [])) Scripted.www []) = Return response
       /\ dns.rcode response = dns.rcode_REFUSED.
Proof.
  destruct (unsigned_query_under_enforcement (Fixture.collaborators true (Return []))
              Scripted.www []) as (Hzone & Hresponse & _); try reflexivity.
  split; [exact Hzone|].
  assert (Hfst : exists response,
            fst (__call__ (Fixture.collaborators true (Return [])) Scripted.www [])
            = Return response) by (eexists; vm_compute; reflexivity).
  destruct Hfst as [response Hfst]. exists response.
  split; [exact Hfst|]. exact (proj1 (Hresponse response Hfst)).
Defined.

(** A transfer request for a name no zone has. *)
Lemma axfr_zone_not_found_witness :
  exists response tr',
    __call__ Scripted.plain (Fixture.request 0 [Fixture.q "nowhere.example." 252] "198.51.100.7" None) []
      = (Return response, tr')
    /\ dns.rcode response = dns.rcode_REFUSED.
Proof.
  destruct (axfr_zone_not_found Scripted.plain
              (Fixture.request 0 [Fixture.q "nowhere.example." 252] "198.51.100.7" None)
              (Fixture.q "nowhere.example." 252)
              (<["pool_id" := VStr "pool-1"]> (<["name" := VStr "nowhere.example."]> ∅))
              DomainNotFound [])
    as (response & Hcall & Hrcode & _);
    try (vm_compute; reflexivity); [by left|by left|].
  eexists response, _. split; [exact Hcall|exact Hrcode].
Defined.

(** The record-set of www.example.com. has live records; one without
    records has none. *)
Lemma convert_to_rrset_emits_iff_live_witness :
  is_Some (_convert_to_rrset Fixture.zone Fixture.www_rs)
  /\ _convert_to_rrset Fixture.zone
       {| rs_name := "empty.example.com."; rs_type := "A"; rs_ttl := None;
          rs_domain_id := "zone-1"; records := [] |} = None.
Proof.
  split.
  - apply (proj1 (convert_to_rrset_emits_iff_live Fixture.zone Fixture.www_rs)).
    constructor. discriminate.
  - apply (proj1 (proj2 (convert_to_rrset_emits_iff_live Fixture.zone _))).
    reflexivity.
Defined.

(** The SOA record-set has the TTL 600 of its own; that of
    www.example.com. has none. *)
Lemma convert_to_rrset_ttl_selection_witness :
  _convert_to_rrset Fixture.zone Fixture.soa_rs
    = _convert_to_rrset Fixture.other_zone Fixture.soa_rs
  /\ (forall r, _convert_to_rrset Fixture.other_zone Fixture.www_rs = Some r ->
        dns.rr_ttl r = 7200).
Proof.
  split.
  - apply (proj1 (convert_to_rrset_ttl_selection Fixture.soa_rs) 600);
      [reflexivity|discriminate].
  - intros r Hr.
    apply (proj2 (convert_to_rrset_ttl_selection Fixture.www_rs) Fixture.other_zone r);
      [by left|exact Hr].
Defined.

(** The transfer of example.com. *)
Lemma axfr_answer_shape_witness :
  exists response tr',
    __call__ Scripted.plain Scripted.axfr [] = (Return response, tr')
    /\ length (dns.resp_answer response) = 4%nat
    /\ ~ None ∈ dns.resp_answer response.
Proof.
  destruct (axfr_answer_shape Scripted.plain Scripted.axfr (Fixture.q "example.com." 252)
              (<["pool_id" := VStr "pool-1"]> (<["name" := VStr "example.com."]> ∅))
              Fixture.zone [Fixture.soa_rs]
              [Fixture.www_rs; Fixture.gone_rs; Fixture.zero_ttl_rs] [])
    as (response & tr' & Hcall & Hlen & _ & Hnone);
    try (vm_compute; reflexivity); [by left|].
  exists response, tr'. split; [exact Hcall|]. split.
  - rewrite Hlen. vm_compute. reflexivity.
  - rewrite Hnone. intros Hex. apply Exists_cons in Hex as [Hall|Hex].
    + inversion Hall as [|? ? Hdel _]. discriminate Hdel.
    + inversion Hex.
Defined.

(** The answered query for www.example.com. *)
Lemma response_rcode_and_AA_witness :
  exists response tr',
    __call__ Scripted.plain Scripted.www [] = (Return response, tr')
    /\ dns.has_AA response = bool_decide (dns.rcode response = dns.rcode_NOERROR).
Proof.
  assert (Hcall : exists response tr', __call__ Scripted.plain Scripted.www [] = (Return response, tr'))
    by (do 2 eexists; vm_compute; reflexivity).
  destruct Hcall as (response & tr' & Hcall). exists response, tr'.
  split; [exact Hcall|].
  exact (proj1 (proj2 (response_rcode_and_AA Scripted.plain Scripted.www [] tr' response Hcall))).
Defined.

Lemma response_mirrors_request_witness :
  exists response tr',
    __call__ Scripted.plain Scripted.www [] = (Return response, tr')
    /\ dns.resp_id response = 4242
    /\ dns.resp_question response = [Fixture.q "www.example.com." 1].
Proof.
  assert (Hcall : exists response tr', __call__ Scripted.plain Scripted.www [] = (Return response, tr'))
    by (do 2 eexists; vm_compute; reflexivity).
  destruct Hcall as (response & tr' & Hcall). exists response, tr'.
  split; [exact Hcall|].
  destruct (response_mirrors_request Scripted.plain Scripted.www [] tr' response Hcall)
    as (Hid & Hquestion & _).
  split; [exact Hid|exact Hquestion].
Defined.

Lemma query_calls_made_witness :
  resync_tasks (snd (__call__ Scripted.plain Scripted.axfr [])) = resync_tasks []
  /\ remote_queries (snd (__call__ Scripted.plain Scripted.axfr [])) = remote_queries []
  /\ (length (storage_calls (snd (__call__ Scripted.plain Scripted.axfr []))) <= length (storage_calls []) + 3)%nat.
Proof. apply (query_calls_made Scripted.plain Scripted.axfr []). reflexivity. Defined.

Lemma notify_calls_made_witness :
  (length (resync_tasks (snd (__call__ Scripted.plain Scripted.notify []))) <= length (resync_tasks []) + 1)%nat.
Proof.
  apply (proj2 (proj2 (proj2 (notify_calls_made Scripted.plain Scripted.notify [] eq_refl)))).
Defined.

(** The query signed with a key for zone-2. *)
Lemma signed_request_ignores_conf_witness :
  let signed := with_tsigkey Scripted.www (Some {| scope := "ZONE"; resource_id := "zone-2" |}) in
  __call__ (with_conf Scripted.plain true "pool-9") signed [] = __call__ Scripted.plain signed [].
Proof.
  intros signed.
  apply (signed_request_ignores_conf Scripted.plain signed
           {| scope := "ZONE"; resource_id := "zone-2" |} true "pool-9" []).
  reflexivity.
Defined.

Lemma ixfr_answered_as_axfr_witness :
  outcome_payload (fst (__call__ Scripted.plain (with_rdtype Scripted.axfr dns.rdatatype_IXFR) []))
    = outcome_payload (fst (__call__ Scripted.plain (with_rdtype Scripted.axfr dns.rdatatype_AXFR) []))
  /\ snd (__call__ Scripted.plain (with_rdtype Scripted.axfr dns.rdatatype_IXFR) [])
     = snd (__call__ Scripted.plain (with_rdtype Scripted.axfr dns.rdatatype_AXFR) []).
Proof.
  apply (ixfr_answered_as_axfr Scripted.plain Scripted.axfr (Fixture.q "example.com." 252) []);
    reflexivity.
Defined.

(** The floating IP 5c02c519 of RegionOne. *)
Lemma show_basic_result_witness :
  exists out,
    FloatingIPView.show_basic unit (Scripted.links "http://api") Fixture.ctx tt
      Scripted.floatingip = Return out
    /\ out !! "id" = Some (FloatingIPView.JStr "RegionOne:5c02c519")
    /\ out !! "region" = None
    /\ out !! "address" = Some (FloatingIPView.JStr "192.0.2.44").
Proof.
  destruct (show_basic_result unit (Scripted.links "http://api") Fixture.ctx tt
              Scripted.floatingip "RegionOne" "5c02c519")
    as (out & Hout & Hid & Hregion & _ & Hrest); try (vm_compute; reflexivity).
  exists out. split; [exact Hout|]. split; [exact Hid|]. split; [exact Hregion|].
  rewrite Hrest by discriminate. vm_compute. reflexivity.
Defined.

Lemma show_basic_errors_witness :
  FloatingIPView.show_basic unit (Scripted.links "http://api") Fixture.ctx tt
    (delete "region" Scripted.floatingip) = Raise (Other "KeyError")
  /\ FloatingIPView.show_basic unit (Scripted.links "http://api") Fixture.ctx tt
       (<["id" := FloatingIPView.JInt 7]> Scripted.floatingip) = Raise (Other "TypeError").
Proof.
  split.
  - apply (proj1 (show_basic_errors unit (Scripted.links "http://api") Fixture.ctx tt
                    (delete "region" Scripted.floatingip))).
    left. vm_compute. reflexivity.
  - apply (proj2 (show_basic_errors unit (Scripted.links "http://api") Fixture.ctx tt
                    (<["id" := FloatingIPView.JInt 7]> Scripted.floatingip))
             (FloatingIPView.JStr "RegionOne") (FloatingIPView.JInt 7));
      try (vm_compute; reflexivity).
    right. discriminate.
Defined.

Lemma show_basic_id_injective_witness :
  exists out,
    FloatingIPView.show_basic unit (Scripted.links "http://api") Fixture.ctx tt
      Scripted.floatingip = Return out
    /\ ("RegionOne" = "RegionOne" /\ "5c02c519" = "5c02c519").
Proof.
  assert (Hout : exists out,
            FloatingIPView.show_basic unit (Scripted.links "http://api") Fixture.ctx tt
              Scripted.floatingip = Return out) by (eexists; vm_compute; reflexivity).
  destruct Hout as [out Hout]. exists out. split; [exact Hout|].
  apply (show_basic_id_injective unit (Scripted.links "http://api") Fixture.ctx tt
           Scripted.floatingip Scripted.floatingip out out
           "RegionOne" "RegionOne" "5c02c519" "5c02c519");
    try (vm_compute; reflexivity); exact Hout.
Defined.

End MoreExamples.

(** ** The two dnspython calls *)

Section Library.

Variable self : Collaborators.
Variable from_text_list_error : string -> Z -> Z -> string -> list string -> option exn.

Abbreviation err := from_text_list_error.

Lemma make_response_query (request : Request) (tr : list Event) :
  Z.land (req_flags request) dns.flags_QR = 0 ->
  WithLibrary.dns_message_make_response request tr = (Return (make_response request), tr).
Proof.
  intros Hqr. unfold WithLibrary.dns_message_make_response. by rewrite Hqr.
Qed.

Lemma make_response_not_query (request : Request) (tr : list Event) :
  Z.land (req_flags request) dns.flags_QR ≠ 0 ->
  WithLibrary.dns_message_make_response request tr = (Raise (Other "FormError"), tr).
Proof.
  intros Hqr. unfold WithLibrary.dns_message_make_response.
  by destruct (Z.eqb_spec (Z.land (req_flags request) dns.flags_QR) 0).
Qed.

(** A message with the QR bit set is refused by [make_response], which
    every path of the handler calls before any collaborator. *)
Lemma call_form_error (request : Request) (tr : list Event) :
  Z.land (req_flags request) dns.flags_QR ≠ 0 ->
  WithLibrary.__call__ self err request tr = (Raise (Other "FormError"), tr).
Proof.
  intros Hqr.
  unfold WithLibrary.__call__, WithLibrary._handle_notify, WithLibrary._handle_axfr,
    WithLibrary._handle_record_query, WithLibrary._handle_query_error,
    WithLibrary.dns_message_make_response.
  destruct (Z.eqb_spec (Z.land (req_flags request) dns.flags_QR) 0) as [|_]; [done|].
  unfold_monad.
  destruct (question request) as [|q [|q' qs]]; simpl.
  all: repeat case_match; simplify_eq/=; done.
Qed.

(** The projection with the library call: it leaves the trace as it
    is, and either returns what [RequestHandler._convert_to_rrset] gives or
    raises what [from_text_list] raises. *)
Lemma convert_with_library (domain : Domain) (recordset : RecordSet) (tr : list Event) :
  (projection_parses err domain recordset
   /\ WithLibrary._convert_to_rrset err domain recordset tr
      = (Return (RequestHandler._convert_to_rrset domain recordset), tr))
  \/ (exists e, raised_by_from_text_list err e
                /\ WithLibrary._convert_to_rrset err domain recordset tr = (Raise e, tr)).
Proof.
  unfold projection_parses, WithLibrary._convert_to_rrset,
    RequestHandler._convert_to_rrset, WithLibrary.dns_rrset_from_text_list.
  destruct (foldl _ [] (records recordset)) as [|x l]; [by left|].
  cbn [dns.rr_name dns.rr_ttl dns.rr_rdclass dns.rr_rdtype dns.rr_rdata].
  destruct (err _ _ _ _ _) as [e|] eqn:He.
  - right. exists e. split; [|done]. unfold raised_by_from_text_list. eauto 10.
  - by left.
Qed.

Lemma convert_refines (domain : Domain) (recordset : RecordSet) (tr : list Event) :
  projection_parses err domain recordset ->
  WithLibrary._convert_to_rrset err domain recordset tr
  = (Return (RequestHandler._convert_to_rrset domain recordset), tr).
Proof.
  intros Hparse.
  destruct (convert_with_library domain recordset tr) as [[_ H]|(e & _ & H)]; [done|].
  revert Hparse H.
  unfold projection_parses, WithLibrary._convert_to_rrset,
    RequestHandler._convert_to_rrset, WithLibrary.dns_rrset_from_text_list.
  destruct (foldl _ [] (records recordset)) as [|x l]; [done|].
  cbn [dns.rr_name dns.rr_ttl dns.rr_rdclass dns.rr_rdtype dns.rr_rdata].
  by intros ->.
Qed.

(** The two loops over record-sets, when everything parses. *)
Lemma for_each_append_refines (domain : Domain) (l : list RecordSet)
    (acc : list (option dns.RRset)) (tr : list Event) :
  Forall (projection_parses err domain) l ->
  WithLibrary.for_each l
    (λ r_rrsets recordset,
       r_rrset ← WithLibrary._convert_to_rrset err domain recordset;
       mret (r_rrsets ++ [r_rrset])) acc tr
  = (Return (foldl (λ r_rrsets recordset,
                      r_rrsets ++ [RequestHandler._convert_to_rrset domain recordset])
               acc l), tr).
Proof.
  intros Hall. revert acc. induction Hall as [|rs l Hrs _ IH]; intros acc; [done|].
  cbn [WithLibrary.for_each foldl]. unfold mbind, M_bind at 1.
  unfold mbind, M_bind at 1. rewrite convert_refines by done.
  unfold mret, M_ret at 1. apply IH.
Qed.

Lemma for_each_append_some_refines (domain : Domain) (l : list RecordSet)
    (acc : list (option dns.RRset)) (tr : list Event) :
  Forall (projection_parses err domain) l ->
  WithLibrary.for_each l
    (λ r_rrsets recordset,
       r_rrset ← WithLibrary._convert_to_rrset err domain recordset;
       mret (match r_rrset with
             | Some r_rrset => r_rrsets ++ [Some r_rrset]
             | None => r_rrsets
             end)) acc tr
  = (Return (foldl (λ r_rrsets recordset,
                      match RequestHandler._convert_to_rrset domain recordset with
                      | Some r_rrset => r_rrsets ++ [Some r_rrset]
                      | None => r_rrsets
                      end)
               acc l), tr).
Proof.
  intros Hall. revert acc. induction Hall as [|rs l Hrs _ IH]; intros acc; [done|].
  cbn [WithLibrary.for_each foldl]. unfold mbind, M_bind at 1.
  unfold mbind, M_bind at 1. rewrite convert_refines by done.
  unfold mret, M_ret at 1. apply IH.
Qed.

Lemma for_each_cons {A S : Type} (x : A) (l : list A) (body : S -> A -> M S) (s : S)
    (tr : list Event) :
  WithLibrary.for_each (x :: l) body s tr
  = match body s x tr with
    | (Return s', tr') => WithLibrary.for_each l body s' tr'
    | (Raise e, tr') => (Raise e, tr')
    end.
Proof. reflexivity. Qed.

Lemma bind_convert {S : Type} (domain : Domain) (recordset : RecordSet)
    (k : option dns.RRset -> S) (tr : list Event) :
  (r_rrset ← WithLibrary._convert_to_rrset err domain recordset; mret (k r_rrset)) tr
  = match WithLibrary._convert_to_rrset err domain recordset tr with
    | (Return r_rrset, tr') => (Return (k r_rrset), tr')
    | (Raise e, tr') => (Raise e, tr')
    end.
Proof. reflexivity. Qed.

(** A loop over record-sets leaves the trace as it is, and raises only
    what [from_text_list] raises. *)
Lemma for_each_convert_outcome {S : Type} (domain : Domain) (l : list RecordSet)
    (f : S -> option dns.RRset -> S) (acc : S) (tr : list Event) :
  (exists acc', WithLibrary.for_each l
                  (λ s recordset,
                     r_rrset ← WithLibrary._convert_to_rrset err domain recordset;
                     mret (f s r_rrset)) acc tr = (Return acc', tr))
  \/ (exists e, raised_by_from_text_list err e
                /\ WithLibrary.for_each l
                     (λ s recordset,
                        r_rrset ← WithLibrary._convert_to_rrset err domain recordset;
                        mret (f s r_rrset)) acc tr = (Raise e, tr)).
Proof.
  revert acc. induction l as [|rs l IH]; intros acc; [left; by eexists|].
  rewrite for_each_cons. cbv beta. rewrite bind_convert.
  destruct (convert_with_library domain rs tr) as [[_ ->]|(e & He & ->)].
  - apply IH.
  - right. by exists e.
Qed.

(** On a query message whose stored record-sets dnspython parses, the
    handler with the library calls runs as [RequestHandler] does. *)
Lemma call_refines (request : Request) (tr : list Event) :
  Z.land (req_flags request) dns.flags_QR = 0 ->
  (forall domain recordset, stored self recordset ->
     projection_parses err domain recordset) ->
  WithLibrary.__call__ self err request tr = RequestHandler.__call__ self request tr.
Proof.
  intros Hqr Hparse.
  assert (Hlist : forall ctx criterion l domain,
            find_recordsets self ctx criterion = Return l ->
            Forall (projection_parses err domain) l).
  { intros ctx criterion l domain Hl. apply Forall_forall. intros rs Hin.
    apply Hparse. right. eauto. }
  unfold WithLibrary.__call__, WithLibrary._handle_notify, WithLibrary._handle_axfr,
    WithLibrary._handle_record_query, WithLibrary._handle_query_error,
    WithLibrary.dns_message_make_response,
    RequestHandler.__call__, RequestHandler._handle_notify, RequestHandler._handle_axfr,
    RequestHandler._handle_record_query, RequestHandler._handle_query_error.
  destruct (Z.eqb_spec (Z.land (req_flags request) dns.flags_QR) 0) as [_|]; [|done].
  unfold_monad.
  destruct (question request) as [|q [|q' qs]]; simpl.
  all: repeat (case_match; simplify_eq/=); try done.
  all: repeat match goal with
       | H : WithLibrary._convert_to_rrset _ _ _ _ = _ |- _ =>
           rewrite convert_refines in H by (apply Hparse; left; eauto); simplify_eq/=
       | Hd : find_domain _ _ _ = Return ?d,
         H : WithLibrary.for_each ?l _ ?acc ?tr0 = (?o, ?tr') |- _ =>
           let E := fresh "E" in
           first
             [ assert (E : (o, tr')
                           = (Return (foldl (λ r_rrsets recordset,
                                               r_rrsets
                                               ++ [RequestHandler._convert_to_rrset d recordset])
                                        acc l), tr0))
                 by (rewrite <- H; apply (for_each_append_refines d l acc tr0); eauto)
             | assert (E : (o, tr')
                           = (Return (foldl (λ r_rrsets recordset,
                                               match RequestHandler._convert_to_rrset d recordset with
                                               | Some r_rrset => r_rrsets ++ [Some r_rrset]
                                               | None => r_rrsets
                                               end)
                                        acc l), tr0))
                 by (rewrite <- H; apply (for_each_append_some_refines d l acc tr0); eauto) ];
           clear H; simplify_eq/=
       end; try done.
Qed.

End Library.

(** ** Which requests are answered, and with which rcode *)

Section Totality.

Import RequestHandler.

Variable self : Collaborators.

Lemma handle_record_query_zone_not_found (request : Request) (q : dns.Question)
    (qs : list dns.Question) (recordset : RecordSet) (criterion : Criterion) (e : exn)
    (tr : list Event) :
  question request = q :: qs ->
  find_recordset self (context (environ request)) (recordset_criterion self q)
    = Return recordset ->
  _domain_criterion_from_request self request
    (Some (<["id" := VStr (rs_domain_id recordset)]> ∅)) = Return criterion ->
  find_domain self (context (environ request)) criterion = Raise e ->
  isinstance e NotFound = true \/ e = Forbidden ->
  exists tr',
    _handle_record_query self request tr
      = (Return (dns.set_rcode (make_response request) dns.rcode_REFUSED), tr').
Proof.
  intros Hq Hrs Hcrit Hdom He.
  unfold _handle_record_query. unfold_monad. rewrite Hq; simpl.
  fold (recordset_criterion self q). rewrite Hrs, Hcrit, Hdom.
  destruct He as [He| ->]; [|simpl; eauto].
  destruct e; try discriminate He; simpl; eauto.
Qed.

Lemma not_no_failure_opcode (request : Request) :
  opcode request ≠ dns.opcode_QUERY -> opcode request ≠ dns.opcode_NOTIFY ->
  ~ no_failure self request.
Proof. intros Hq Hn [[H _]|[H _]]; done. Qed.

Lemma not_no_failure_query (request : Request) :
  opcode request = dns.opcode_QUERY -> ~ query_succeeds self request ->
  ~ no_failure self request.
Proof.
  intros Hop Hs [[_ H]|[H _]]; [done|]. rewrite Hop in H. discriminate H.
Qed.

Lemma not_no_failure_notify (request : Request) :
  opcode request = dns.opcode_NOTIFY -> ~ notify_succeeds self request ->
  ~ no_failure self request.
Proof.
  intros Hop Hs [[H _]|[_ H]]; [|done]. rewrite Hop in H. discriminate H.
Qed.

Lemma answered_error (request : Request) (rc : Z) :
  ~ no_failure self request ->
  rc = dns.rcode_FORMERR \/ rc = dns.rcode_REFUSED \/ rc = dns.rcode_NOTAUTH ->
  answered self request (dns.set_rcode (make_response request) rc).
Proof.
  intros Hfail Hrc. right. split; [done|].
  rewrite rcode_set_rcode; [done|]. destruct Hrc as [->|[->| ->]]; done.
Qed.

Lemma answered_noerror (request : Request) (answer : list (option dns.RRset)) :
  no_failure self request ->
  answered self request
    (dns.or_flags
       (dns.set_answer (dns.set_rcode (make_response request) dns.rcode_NOERROR) answer)
       dns.flags_AA).
Proof.
  intros Hok. left. split; [done|].
  by rewrite rcode_or_AA, rcode_set_answer, rcode_set_rcode.
Qed.

Section Provisos.

Variable request : Request.

Hypothesis scope_supported :
  opcode request = dns.opcode_QUERY -> supported_scope request.
Hypothesis zone_lookup_failures :
  forall ctx criterion e, find_domain self ctx criterion = Raise e ->
    zone_failure_handled request e.
Hypothesis recordset_lookup_failures :
  opcode request = dns.opcode_QUERY ->
  forall ctx criterion e, find_recordset self ctx criterion = Raise e ->
    isinstance e NotFound = true \/ e = Forbidden.
Hypothesis listings_return :
  opcode request = dns.opcode_QUERY ->
  forall ctx criterion, exists l, find_recordsets self ctx criterion = Return l.
Hypothesis remote_answers :
  opcode request = dns.opcode_NOTIFY ->
  forall ns qname rdtype, exists soa rest,
    resolver_query self ns qname rdtype = Return (soa :: rest).

Lemma handle_axfr_answered (q : dns.Question) (tr : list Event) :
  opcode request = dns.opcode_QUERY ->
  question request = [q] ->
  dns.rdclass q = dns.rdataclass_IN ->
  is_xfr (dns.rdtype q) = true ->
  exists response tr',
    _handle_axfr self request tr = (Return response, tr') /\ answered self request response.
Proof.
  intros Hop Hq Hclass Hxfr.
  assert (Hfail : forall P : Prop,
            (forall criterion domain,
               _domain_criterion_from_request self request
                 (Some (<["name" := VStr (dns.name q)]> ∅)) = Return criterion ->
               find_domain self (context (environ request)) criterion = Return domain ->
               P) ->
            (~ P) -> ~ no_failure self request).
  { intros P HP HnP. apply not_no_failure_query; [done|].
    intros (q0 & Hq0 & _ & Hs). rewrite Hq in Hq0. injection Hq0 as <-.
    rewrite Hxfr in Hs. destruct Hs as (c & d & Hc & Hd). by eapply HnP, HP. }
  destruct (domain_criterion_supported self request
              (Some (<["name" := VStr (dns.name q)]> ∅)) (scope_supported Hop))
    as [Hc|[c Hc]].
  - destruct (handle_axfr_refused self request q [] tr Hq) as [tr' ->]; [by left|].
    do 2 eexists. split; [done|]. apply answered_error; [|tauto].
    apply (Hfail False); [|tauto]. intros c d Hc' _. congruence.
  - destruct (find_domain self (context (environ request)) c) as [domain|e] eqn:Hdom.
    + destruct (listings_return Hop (context (environ request)) (soa_criterion domain))
        as [soas Hsoas].
      destruct (listings_return Hop (context (environ request))
                  (non_soa_criterion domain)) as [others Hothers].
      rewrite (handle_axfr_found self request q [] c domain soas others) by done.
      do 2 eexists. split; [done|]. apply answered_noerror.
      left. split; [done|]. exists q. split; [done|]. split; [done|].
      rewrite Hxfr. eauto.
    + assert (He : e = DomainNotFound \/ e = Forbidden).
      { destruct (zone_lookup_failures _ _ _ Hdom)
          as [He|[[_ He]|(_ & _ & q0 & Hq0 & Hx)]]; [tauto|tauto|].
        rewrite Hq in Hq0. injection Hq0 as <-. congruence. }
      destruct (handle_axfr_refused self request q [] tr Hq) as [tr' ->].
      { right. exists c, e. done. }
      do 2 eexists. split; [done|]. apply answered_error; [|tauto].
      apply (Hfail False); [|tauto]. intros c' d Hc' Hd. congruence.
Qed.

Lemma handle_record_query_answered (q : dns.Question) (tr : list Event) :
  opcode request = dns.opcode_QUERY ->
  question request = [q] ->
  dns.rdclass q = dns.rdataclass_IN ->
  is_xfr (dns.rdtype q) = false ->
  exists response tr',
    _handle_record_query self request tr = (Return response, tr')
    /\ answered self request response.
Proof.
  intros Hop Hq Hclass Hxfr.
  assert (Hfail : forall P : Prop,
            (forall recordset criterion domain,
               find_recordset self (context (environ request)) (recordset_criterion self q)
                 = Return recordset ->
               _domain_criterion_from_request self request
                 (Some (<["id" := VStr (rs_domain_id recordset)]> ∅)) = Return criterion ->
               find_domain self (context (environ request)) criterion = Return domain ->
               P) ->
            (~ P) -> ~ no_failure self request).
  { intros P HP HnP. apply not_no_failure_query; [done|].
    intros (q0 & Hq0 & _ & Hs). rewrite Hq in Hq0. injection Hq0 as <-.
    rewrite Hxfr in Hs. destruct Hs as (rs & c & d & Hrs & Hc & Hd).
    by eapply HnP, HP. }
  destruct (find_recordset self (context (environ request))
              (recordset_criterion self q)) as [recordset|e] eqn:Hrs.
  2:{ rewrite (handle_record_query_no_recordset self request q [] e);
        [|done|done|by eapply recordset_lookup_failures].
      do 2 eexists. split; [done|]. apply answered_error; [|tauto].
      apply (Hfail False); [|tauto]. intros rs c d Hrs' _ _. congruence. }
  destruct (domain_criterion_supported self request
              (Some (<["id" := VStr (rs_domain_id recordset)]> ∅)) (scope_supported Hop))
    as [Hc|[c Hc]].
  - destruct (handle_record_query_refused self request q [] recordset tr Hq Hrs)
      as [tr' ->]; [by left|].
    do 2 eexists. split; [done|]. apply answered_error; [|tauto].
    apply (Hfail False); [|tauto]. intros rs c d Hrs' Hc' _. congruence.
  - destruct (find_domain self (context (environ request)) c) as [domain|e] eqn:Hdom.
    + rewrite (handle_record_query_found self request q [] recordset c domain) by done.
      do 2 eexists. split; [done|]. apply answered_noerror.
      left. split; [done|]. exists q. split; [done|]. split; [done|].
      rewrite Hxfr. eauto 10.
    + assert (He : isinstance e NotFound = true \/ e = Forbidden).
      { destruct (zone_lookup_failures _ _ _ Hdom) as [->|[[_ ->]|(_ & He & _)]]; auto. }
      destruct (handle_record_query_zone_not_found request q [] recordset c e tr)
        as [tr' ->]; try done.
      do 2 eexists. split; [done|]. apply answered_error; [|tauto].
      apply (Hfail False); [|tauto]. intros rs c' d Hrs' Hc' Hd. congruence.
Qed.

Lemma handle_notify_answered (tr : list Event) :
  opcode request = dns.opcode_NOTIFY ->
  exists response tr',
    _handle_notify self request tr = (Return response, tr') /\ answered self request response.
Proof.
  intros Hop.
  destruct (decide (length (question request) = 1%nat)) as [Hlen|Hlen].
  2:{ rewrite handle_notify_formerr by done.
      do 2 eexists. split; [done|]. apply answered_error; [|tauto].
      apply not_no_failure_notify; [done|].
      intros (q & d & m & Hq & _). by rewrite Hq in Hlen. }
  destruct (question request) as [|q [|q' qs]] eqn:Hq; try discriminate Hlen.
  assert (Hfail : forall P : Prop,
            (forall domain master_addr,
               find_domain self (context (environ request)) (notify_criterion q)
                 = Return domain ->
               get_master_by_ip self domain (fst (addr (environ request)))
                 = Some master_addr -> P) ->
            (~ P) -> ~ no_failure self request).
  { intros P HP HnP. apply not_no_failure_notify; [done|].
    intros (q0 & d & m & Hq0 & Hd & Hm). rewrite Hq in Hq0. injection Hq0 as <-.
    by eapply HnP, HP. }
  destruct (find_domain self (context (environ request)) (notify_criterion q))
    as [domain|e] eqn:Hdom.
  2:{ assert (e = DomainNotFound) as ->.
      { destruct (zone_lookup_failures _ _ _ Hdom) as [He|[[Hx _]|[Hx _]]]; [done|..];
          rewrite Hop in Hx; discriminate Hx. }
      rewrite (handle_notify_notauth self request q) by done.
      do 2 eexists. split; [done|]. apply answered_error; [|tauto].
      apply (Hfail False); [|tauto]. intros d m Hd _. congruence. }
  destruct (get_master_by_ip self domain (fst (addr (environ request))))
    as [master_addr|] eqn:Hmaster.
  - destruct (remote_answers Hop [fst (addr (environ request))] (d_name domain) "SOA")
      as (soa & rest & Hsoa).
    rewrite (handle_notify_master self request q domain master_addr soa rest) by done.
    do 2 eexists. split; [done|]. left. split.
    + right. split; [done|]. exists q, domain, master_addr. by rewrite Hq.
    + by rewrite rcode_or_AA, rcode_make_response.
  - rewrite (handle_notify_non_master self request q domain) by done.
    do 2 eexists. split; [done|]. apply answered_error; [|tauto].
    apply (Hfail False); [|tauto]. intros d m Hd Hm. congruence.
Qed.

Lemma call_answered (tr : list Event) :
  exists response tr',
    __call__ self request tr = (Return response, tr') /\ answered self request response.
Proof.
  destruct (decide (opcode request = dns.opcode_QUERY)) as [Hquery|Hquery].
  - destruct (decide (length (question request) = 1%nat)) as [Hlen|Hlen].
    2:{ rewrite call_query_bad_count by done.
        do 2 eexists. split; [done|]. apply answered_error; [|tauto].
        apply not_no_failure_query; [done|].
        intros (q & Hq & _). by rewrite Hq in Hlen. }
    destruct (question request) as [|q [|q' qs]] eqn:Hq; try discriminate Hlen.
    destruct (decide (dns.rdclass q = dns.rdataclass_IN)) as [Hclass|Hclass].
    2:{ rewrite (call_query_bad_class self request q) by done.
        do 2 eexists. split; [done|]. apply answered_error; [|tauto].
        apply not_no_failure_query; [done|].
        intros (q0 & Hq0 & Hc & _). rewrite Hq in Hq0. injection Hq0 as <-. done. }
    destruct (is_xfr (dns.rdtype q)) eqn:Hxfr.
    + rewrite (call_query_xfr self request q) by done.
      by apply (handle_axfr_answered q).
    + rewrite (call_query_record self request q) by done.
      by apply (handle_record_query_answered q).
  - destruct (decide (opcode request = dns.opcode_NOTIFY)) as [Hnotify|Hnotify].
    + rewrite call_notify by done. by apply handle_notify_answered.
    + rewrite call_other_opcode by done.
      do 2 eexists. split; [done|]. apply answered_error; [|tauto].
      by apply not_no_failure_opcode.
Qed.

End Provisos.

End Totality.

Section LibraryTotality.

Variable self : Collaborators.
Variable from_text_list_error : string -> Z -> Z -> string -> list string -> option exn.

(** A request that is not a QUERY never reaches [from_text_list]. *)
Lemma call_refines_not_query (request : Request) (tr : list Event) :
  Z.land (req_flags request) dns.flags_QR = 0 ->
  opcode request ≠ dns.opcode_QUERY ->
  WithLibrary.__call__ self from_text_list_error request tr
  = RequestHandler.__call__ self request tr.
Proof.
  intros Hqr Hop.
  unfold WithLibrary.__call__, WithLibrary._handle_notify,
    WithLibrary._handle_query_error, WithLibrary.dns_message_make_response,
    RequestHandler.__call__, RequestHandler._handle_notify,
    RequestHandler._handle_query_error.
  destruct (Z.eqb_spec (Z.land (req_flags request) dns.flags_QR) 0) as [_|]; [|done].
  destruct (Z.eqb_spec (opcode request) dns.opcode_QUERY) as [|_]; [done|].
  unfold_monad.
  destruct (question request) as [|q [|q' qs]]; simpl.
  all: repeat (case_match; simplify_eq/=); done.
Qed.

(** C1, as the code has it: the handler returns a Response, whose rcode
    is NOERROR when the request meets no failure and FORMERR, REFUSED or
    NOTAUTH when it meets one, for every query message (QR bit clear),
    provided that: for a QUERY the TSIG key, if any, has scope POOL or
    ZONE; a zone lookup fails only with an error the except clauses around
    it name; for a QUERY the record-set lookup fails only with an error of
    the NotFound family or Forbidden, the record-set listings return and
    dnspython parses the stored record-sets; and for a NOTIFY the remote
    SOA query answers with at least one record. *)
Theorem call_answers_handled_failures (request : Request) (tr : list Event) :
  Z.land (req_flags request) dns.flags_QR = 0 ->
  (opcode request = dns.opcode_QUERY -> supported_scope request) ->
  (forall ctx criterion e, find_domain self ctx criterion = Raise e ->
     zone_failure_handled request e) ->
  (opcode request = dns.opcode_QUERY ->
   forall ctx criterion e, find_recordset self ctx criterion = Raise e ->
     isinstance e NotFound = true \/ e = Forbidden) ->
  (opcode request = dns.opcode_QUERY ->
   forall ctx criterion, exists l, find_recordsets self ctx criterion = Return l) ->
  (opcode request = dns.opcode_QUERY ->
   forall domain recordset, stored self recordset ->
     projection_parses from_text_list_error domain recordset) ->
  (opcode request = dns.opcode_NOTIFY ->
   forall ns qname rdtype, exists soa rest,
     resolver_query self ns qname rdtype = Return (soa :: rest)) ->
  exists response tr',
    WithLibrary.__call__ self from_text_list_error request tr = (Return response, tr')
    /\ ((no_failure self request /\ dns.rcode response = dns.rcode_NOERROR)
        \/ (~ no_failure self request
            /\ (dns.rcode response = dns.rcode_FORMERR
                \/ dns.rcode response = dns.rcode_REFUSED
                \/ dns.rcode response = dns.rcode_NOTAUTH))).
Proof.
  intros Hqr Hscope Hzone Hrs Hlist Hparse Hremote.
  assert (Href : WithLibrary.__call__ self from_text_list_error request tr
                 = RequestHandler.__call__ self request tr).
  { destruct (decide (opcode request = dns.opcode_QUERY)) as [Hop|Hop].
    - apply call_refines; auto.
    - by apply call_refines_not_query. }
  rewrite Href.
  exact (call_answered self request Hscope Hzone Hrs Hlist Hremote tr).
Qed.

(** X17: the exceptions that leave the handler.  An exception raised by
    [__call__] is FormError for a message that has the QR bit set, or an
    exception [dns.rrset.from_text_list] raised, or NotImplementedError for
    a QUERY signed with a key whose scope is neither POOL nor ZONE, or
    IndexError for a NOTIFY whose remote SOA query answered with no record,
    or an exception that one of the collaborators raised. *)
Theorem call_exception_origin (request : Request) (tr tr' : list Event) (e : exn) :
  WithLibrary.__call__ self from_text_list_error request tr = (Raise e, tr') ->
  (e = Other "FormError" /\ Z.land (req_flags request) dns.flags_QR ≠ 0)
  \/ raised_by_from_text_list from_text_list_error e
  \/ (e = NotImplementedError /\ opcode request = dns.opcode_QUERY
      /\ ~ supported_scope request)
  \/ (e = IndexError /\ opcode request = dns.opcode_NOTIFY
      /\ exists ns qname rdtype, resolver_query self ns qname rdtype = Return [])
  \/ raised_by_collaborator self e.
Proof.
  destruct (decide (Z.land (req_flags request) dns.flags_QR = 0)) as [Hqr|Hqr].
  2:{ rewrite call_form_error by done. intros [= <- _]. by left. }
  unfold WithLibrary.__call__, WithLibrary._handle_notify, WithLibrary._handle_axfr,
    WithLibrary._handle_record_query, WithLibrary._handle_query_error,
    WithLibrary.dns_message_make_response.
  destruct (Z.eqb_spec (Z.land (req_flags request) dns.flags_QR) 0) as [_|]; [|done].
  unfold_monad. intros H.
  destruct (question request) as [|q [|q' qs]] eqn:Hq; simpl in H.
  all: repeat (case_match; simplify_eq/=).
  all: rewrite ?Z.eqb_eq in *.
  all: try match goal with
       | Hc : WithLibrary._convert_to_rrset _ ?d ?rs ?tr0 = (Raise _, _) |- _ =>
           destruct (convert_with_library from_text_list_error d rs tr0)
             as [[_ Hx]|(e' & He' & Hx)];
             rewrite Hx in Hc; simplify_eq; right; by left
       | Hd : find_domain _ _ _ = Return ?d,
         Hl : WithLibrary.for_each ?l _ ?acc ?tr0 = (Raise ?e0, ?tr1) |- _ =>
           first
             [ destruct (for_each_convert_outcome from_text_list_error d l
                           (λ s r, s ++ [r]) acc tr0) as [[acc' Hx]|(e' & He' & Hx)];
               [ assert (E : (Raise e0, tr1) = (Return acc', tr0))
                   by (rewrite <- Hl; exact Hx); discriminate E
               | assert (E : (Raise e0, tr1) = (Raise e', tr0))
                   by (rewrite <- Hl; exact Hx); simplify_eq; right; by left ]
             | destruct (for_each_convert_outcome from_text_list_error d l
                           (λ s r, match r with
                                   | Some r_rrset => s ++ [Some r_rrset]
                                   | None => s
                                   end) acc tr0) as [[acc' Hx]|(e' & He' & Hx)];
               [ assert (E : (Raise e0, tr1) = (Return acc', tr0))
                   by (rewrite <- Hl; exact Hx); discriminate E
               | assert (E : (Raise e0, tr1) = (Raise e', tr0))
                   by (rewrite <- Hl; exact Hx); simplify_eq; right; by left ] ]
       end.
  all: try match goal with
       | Hc : RequestHandler._domain_criterion_from_request _ _ _ = Raise _ |- _ =>
           apply domain_criterion_raise in Hc; destruct Hc as [Hc|[Hc Hs]];
             [ try discriminate Hc; subst; exfalso;
               repeat match goal with
                      | Hx : isinstance _ _ = false |- _ => by vm_compute in Hx
                      | Hx : bool_decide _ = false |- _ => by vm_compute in Hx
                      end
             | try discriminate Hc; subst; right; right; left; by eauto ]
       end.
  all: try (do 4 right; unfold raised_by_collaborator; by eauto 10).
  all: match goal with
       | Hnil : ?l !! 0%nat = None |- _ => destruct l; [|discriminate Hnil]
       end.
  all: do 3 right; left; eauto 10.
Qed.

End LibraryTotality.

(** ** The two theorems at the deployments of the examples *)

Section LibraryExamples.

(** C1 as stated fails.  These four runs leave the handler with an
    exception: a transfer request signed with a key of scope TENANT; a
    NOTIFY from a master that does not answer the SOA query; a message
    that has the QR bit set; and a transfer of a zone one of whose records
    dnspython cannot parse. *)
Lemma call_raises :
  let key := {| scope := "TENANT"; resource_id := "tenant-1" |} in
  ~ (exists response tr',
       WithLibrary.__call__ (Fixture.collaborators false (Return [])) Scripted.lenient
         (with_tsigkey Scripted.axfr (Some key)) []
       = (Return response, tr'))
  /\ ~ (exists response tr',
          WithLibrary.__call__ (Fixture.collaborators false (Raise (Other "Timeout")))
            Scripted.lenient Scripted.notify []
          = (Return response, tr'))
  /\ ~ (exists response tr',
          WithLibrary.__call__ Scripted.plain Scripted.lenient Scripted.answer_message []
          = (Return response, tr'))
  /\ ~ (exists response tr',
          WithLibrary.__call__ Scripted.plain Scripted.picky Scripted.axfr []
          = (Return response, tr')).
Proof.
  intros key. repeat split.
  all: intros (response & tr' & Hcall); vm_compute in Hcall; discriminate Hcall.
Qed.

(** The unsigned query for www.example.com. A, at the deployment whose
    storage fails only with its not-found errors, with a dnspython that
    parses everything. *)
Lemma call_answers_handled_failures_witness :
  exists response tr',
    WithLibrary.__call__ Scripted.plain Scripted.lenient Scripted.www []
      = (Return response, tr')
    /\ ((no_failure Scripted.plain Scripted.www
         /\ dns.rcode response = dns.rcode_NOERROR)
        \/ (~ no_failure Scripted.plain Scripted.www
            /\ (dns.rcode response = dns.rcode_FORMERR
                \/ dns.rcode response = dns.rcode_REFUSED
                \/ dns.rcode response = dns.rcode_NOTAUTH))).
Proof.
  apply (call_answers_handled_failures Scripted.plain Scripted.lenient Scripted.www []).
  - reflexivity.
  - intros _. exact I.
  - intros ctx criterion e. unfold Scripted.plain; simpl.
    repeat case_decide; try discriminate. intros [= <-]. by left.
  - intros _ ctx criterion e. unfold Scripted.plain; simpl.
    case_decide; [discriminate|]. intros [= <-]. by left.
  - intros _ ctx criterion. unfold Scripted.plain; simpl. case_decide; eauto.
  - intros _ domain recordset _. unfold projection_parses, Scripted.lenient.
    by destruct (RequestHandler._convert_to_rrset domain recordset).
  - intros Hop. vm_compute in Hop. discriminate Hop.
Defined.

(** The transfer of example.com. with a dnspython that cannot parse the
    address 192.0.2.7. *)
Lemma call_exception_origin_witness :
  (Other "SyntaxError" = Other "FormError"
   /\ Z.land (req_flags Scripted.axfr) dns.flags_QR ≠ 0)
  \/ raised_by_from_text_list Scripted.picky (Other "SyntaxError")
  \/ (Other "SyntaxError" = NotImplementedError
      /\ opcode Scripted.axfr = dns.opcode_QUERY
      /\ ~ supported_scope Scripted.axfr)
  \/ (Other "SyntaxError" = IndexError /\ opcode Scripted.axfr = dns.opcode_NOTIFY
      /\ exists ns qname rdtype,
           resolver_query Scripted.plain ns qname rdtype = Return [])
  \/ raised_by_collaborator Scripted.plain (Other "SyntaxError").
Proof.
  eapply (call_exception_origin Scripted.plain Scripted.picky Scripted.axfr []
            _ (Other "SyntaxError")).
  vm_compute. reflexivity.
Defined.

End LibraryExamples.
